(** * Scenario generator of the table-booking experiment

    A shallow embedding of [src/lib/dataGenerator.ts] (with the records of
    [src/lib/types.ts]) and the properties of the layout generator, the
    scenario generator and the availability oracle; then of the callers of
    the generator: the table grid ([RestaurantGrid.svelte] and its table
    component), the handlers of the experiment page ([+page.svelte]), and of
    the tallies and the median of the analysis script ([analyze-results.js]).

    Conventions of the embedding.

    - A JavaScript number that the program computes from a time string is a
      [number]: an integer or [NaN].  Table ids, capacities and minute counts
      are integers ([Z]); all of them stay far below 2^53, where the
      double-precision arithmetic of JavaScript is exact.
    - Strings are [string]; [split], [Number], [String] and [padStart] are
      written out for the inputs the program gives them.
    - [Math.random] is a stream of draws, each a rational in [0,1), threaded
      through the generators as explicit state.  A [TypeError] (reading a
      property of [undefined]) is the [None] result of a computation. *)

From Stdlib Require Import ZArith QArith Qround Ascii String DecimalString Lia.
From stdpp Require Import base tactics option list strings sorting.

Local Open Scope string_scope.
Local Open Scope list_scope.
Local Open Scope Z_scope.

(** ** Data model ([types.ts]) *)

Inductive TableShape := circle | square.

Record Table := {
  id : Z;
  shape : TableShape;
  capacity : Z
}.

Record BookingSlot := {
  tableId : Z;
  startTime : string;
  endTime : string
}.

Record Prompt := {
  partySize : Z;
  time : string;
  displayTime : string
}.

Inductive SystemType := coloured | text.

Record ExperimentData := {
  systemType : SystemType;
  bookings : list BookingSlot;
  tables : list Table;
  prompt : Prompt
}.

(** ** JavaScript numbers and strings, as far as the program uses them *)

Module Js.

(** The value of a numeric expression: an integer or [NaN]. *)
Inductive number := NaN | Num (z : Z).

(** An array element read by destructuring: [None] is [undefined]. *)
Definition value := option number.

(** Numeric coercion: [undefined] becomes [NaN]. *)
Definition toNumber (v : value) : number :=
  match v with Some n => n | None => NaN end.

Definition lift2 (f : Z -> Z -> Z) (a b : number) : number :=
  match a, b with
  | Num x, Num y => Num (f x y)
  | _, _ => NaN
  end.

Definition add := lift2 Z.add.
Definition sub := lift2 Z.sub.
Definition mul := lift2 Z.mul.

(** [Math.floor(a / b)] on integers, for a divisor that is not zero. *)
Definition floorDiv := lift2 Z.div.

(** [a % b]: the remainder has the sign of the dividend. *)
Definition rem := lift2 Z.rem.

Definition cmp (f : Z -> Z -> bool) (a b : number) : bool :=
  match a, b with
  | Num x, Num y => f x y
  | _, _ => false
  end.

(** Comparisons: every comparison with [NaN] is false. *)
Definition lt := cmp Z.ltb.
Definition gt := cmp Z.gtb.
Definition ge := cmp Z.geb.
Definition strictEq := cmp Z.eqb.

Definition digit (c : ascii) : option Z :=
  let n := Z.of_nat (nat_of_ascii c) in
  if (48 <=? n) && (n <=? 57) then Some (n - 48) else None.

Fixpoint digits (acc : Z) (s : string) : number :=
  match s with
  | EmptyString => Num acc
  | String c s' =>
      match digit c with
      | Some d => digits (10 * acc + d) s'
      | None => NaN
      end
  end.

(** [Number(s)] for a string of decimal digits (the empty string reads as
    0, as in JavaScript), exact for values below 2^53.  Every other string
    reads as [NaN] here: signs, blanks, fractions, exponents and radix
    prefixes, which JavaScript also accepts, do not occur in "HH:MM"
    strings and are not modelled. *)
Definition Number (s : string) : number := digits 0 s.

(** [String(n)]. *)
Definition String (n : number) : string :=
  match n with
  | NaN => "NaN"
  | Num z => NilZero.string_of_int (Z.to_int z)
  end.

(** A value inside a template literal. *)
Definition show (v : value) : string :=
  match v with Some n => String n | None => "undefined" end.

Fixpoint replicate (n : nat) (c : ascii) : string :=
  match n with
  | O => EmptyString
  | S n' => String.String c (replicate n' c)
  end.

(** [s.padStart(n, c)] for a one-character filler [c]. *)
Definition padStart (n : nat) (c : ascii) (s : string) : string :=
  (replicate (n - String.length s) c ++ s)%string.

(** [s.split(sep)] for a one-character separator; the result is never
    empty. *)
Fixpoint split (sep : ascii) (s : string) : list string :=
  match s with
  | EmptyString => [EmptyString]
  | String.String c s' =>
      if Ascii.eqb c sep then EmptyString :: split sep s'
      else match split sep s' with
           | h :: t => String.String c h :: t
           | [] => [String.String c EmptyString]
           end
  end.

End Js.

(** ** Time utilities *)

Definition AVAILABLE_TIMES : list string :=
  ["17:00"; "17:30"; "18:00"; "18:30"; "19:00"; "19:30"; "20:00"; "20:30"; "21:00"].

(** [const [hours, mins] = time.split(':').map(Number)] *)
Definition splitTime (time : string) : Js.value * Js.value :=
  let parts := map Js.Number (Js.split ":" time) in
  (parts !! 0%nat, parts !! 1%nat).

Definition formatTimeForDisplay (time24 : string) : string :=
  let '(hours, minutes) := splitTime time24 in
  let h := Js.toNumber hours in
  let period := if Js.ge h (Js.Num 12) then "PM" else "AM" in
  let displayHour : Js.value :=
    if Js.gt h (Js.Num 12) then Some (Js.sub h (Js.Num 12))
    else if Js.strictEq h (Js.Num 0) then Some (Js.Num 12) else hours in
  if Js.strictEq (Js.toNumber minutes) (Js.Num 0)
  then (Js.show displayHour ++ period)%string
  else (Js.show displayHour ++ ":" ++ Js.show minutes ++ period)%string.

(** [`${String(h).padStart(2, '0')}:${String(m).padStart(2, '0')}`] *)
Definition renderTime (h m : Js.number) : string :=
  (Js.padStart 2 "0" (Js.String h) ++ ":" ++ Js.padStart 2 "0" (Js.String m))%string.

Definition addMinutes (time : string) (minutes : Z) : string :=
  let '(hours, mins) := splitTime time in
  let totalMinutes :=
    Js.add (Js.add (Js.mul (Js.toNumber hours) (Js.Num 60)) (Js.toNumber mins))
           (Js.Num minutes) in
  let newHours := Js.rem (Js.floorDiv totalMinutes (Js.Num 60)) (Js.Num 24) in
  let newMins := Js.rem totalMinutes (Js.Num 60) in
  renderTime newHours newMins.

Definition timeToMinutes (time : string) : Js.number :=
  let '(hours, mins) := splitTime time in
  Js.add (Js.mul (Js.toNumber hours) (Js.Num 60)) (Js.toNumber mins).

Definition timesOverlap (start1 end1 start2 end2 : string) : bool :=
  let s1 := timeToMinutes start1 in
  let e1 := timeToMinutes end1 in
  let s2 := timeToMinutes start2 in
  let e2 := timeToMinutes end2 in
  Js.lt s1 e2 && Js.lt s2 e1.

Definition isTableAvailable (tableId0 : Z) (selectedTime : string)
    (bookings0 : list BookingSlot) : bool :=
  let endTime0 := addMinutes selectedTime 90 in
  negb (existsb (fun booking =>
                   (tableId booking =? tableId0) &&
                   timesOverlap selectedTime endTime0 (startTime booking) (endTime booking))
                bookings0).

(** ** The random source and the monad of the generators *)

(** The draws [Math.random] will return, in order. *)
Definition Rng := nat -> Q.

(** Every draw lies in [0,1). *)
Definition valid (s : Rng) : Prop := forall i : nat, (0 <= s i /\ s i < 1)%Q.

(** A computation consumes draws and returns a value, or fails with a
    [TypeError] ([None]). *)
Definition M (A : Type) : Type := Rng -> option (A * Rng).

Definition ret {A} (a : A) : M A := fun s => Some (a, s).

Definition bind {A B} (m : M A) (f : A -> M B) : M B :=
  fun s => match m s with
           | Some (a, s') => f a s'
           | None => None
           end.

Definition throw {A} : M A := fun _ => None.

Notation "x <- m ;; k" := (bind m (fun x => k))
  (at level 100, m at next level, right associativity).

(** [Math.random()] *)
Definition random : M Q := fun s => Some (s 0%nat, fun i => s (S i)).

(** [Math.floor(r * n)] for a draw [r] and an integer [n].  The product is
    taken exactly; for the sizes of this program (at most 12) the rounded
    double-precision product has the same floor bounds. *)
Definition floorMul (r : Q) (n : Z) : Z := Qfloor (r * inject_Z n).

(** [Math.floor(Math.random() * n)], as an array index. *)
Definition randomIndex (n : Z) : M nat :=
  r <- random ;; ret (Z.to_nat (floorMul r n)).

(** A property read on [undefined] throws. *)
Definition defined {A} (o : option A) : M A :=
  match o with Some a => ret a | None => throw end.

(** [l.forEach(f)], the callback updating a state [S]. *)
Fixpoint forEach {A S} (f : A -> S -> M S) (l : list A) (acc : S) : M S :=
  match l with
  | [] => ret acc
  | a :: l' => acc' <- f a acc ;; forEach f l' acc'
  end.

(** ** Layout generator *)

(** [Math.random() > 0.5 ? 'circle' : 'square'] *)
Definition randomShape : M TableShape :=
  r <- random ;; ret (if Qle_bool r (1 # 2) then square else circle).

(** One of the two filling loops of [generateTables]: [n] iterations, each
    pushing a table of capacity [cap] with the next id. *)
Fixpoint pushTables (n : nat) (cap : Z) (st : list Table * Z) : M (list Table * Z) :=
  match n with
  | O => ret st
  | S n' =>
      shape0 <- randomShape ;;
      let '(tables0, id0) := st in
      pushTables n' cap
        (tables0 ++ [{| id := id0; shape := shape0; capacity := cap |}], id0 + 1)
  end.

(** [[tables[i], tables[j]] = [tables[j], tables[i]]].  The shuffle calls it
    with [j <= i < length tables] only; out of that range the model leaves
    the list as it is. *)
Definition swap (i j : nat) (tables0 : list Table) : list Table :=
  match tables0 !! i, tables0 !! j with
  | Some ti, Some tj => <[j := ti]> (<[i := tj]> tables0)
  | _, _ => tables0
  end.

(** The shuffle loop, [i] running down to 1. *)
Fixpoint shuffleFrom (i : nat) (tables0 : list Table) : M (list Table) :=
  match i with
  | O => ret tables0
  | S i' =>
      j <- randomIndex (Z.of_nat i + 1) ;;
      shuffleFrom i' (swap i j tables0)
  end.

Definition shuffle (tables0 : list Table) : M (list Table) :=
  shuffleFrom (length tables0 - 1) tables0.

(** [generateTables] before the shuffle. *)
Definition fillTables : M (list Table) :=
  r <- random ;;
  let numFourPerson := 4 + floorMul r 5 in
  let numSixPerson := 12 - numFourPerson in
  st <- pushTables (Z.to_nat numFourPerson) 4 ([], 1) ;;
  st <- pushTables (Z.to_nat numSixPerson) 6 st ;;
  ret (fst st).

Definition generateTables : M (list Table) :=
  tables0 <- fillTables ;; shuffle tables0.

(** ** Scenario generator *)

(** In [generateRandomPrompt] the index into [partySizes] is 0 or 1 and the
    index into [AVAILABLE_TIMES] is below 9, so both reads are in range
    ([generateRandomPrompt_returns]); a read of [undefined] is given as
    failure. *)
Definition generateRandomPrompt : M Prompt :=
  let partySizes := [4; 6] in
  i <- randomIndex (Z.of_nat (length partySizes)) ;;
  partySize0 <- defined (partySizes !! i) ;;
  j <- randomIndex (Z.of_nat (length AVAILABLE_TIMES)) ;;
  time0 <- defined (AVAILABLE_TIMES !! j) ;;
  ret {| partySize := partySize0; time := time0;
         displayTime := formatTimeForDisplay time0 |}.

(** [tables.filter(table => table.capacity === prompt.partySize)] *)
Definition suitableTables (tables0 : list Table) (prompt0 : Prompt) : list Table :=
  filter (fun table => capacity table = partySize prompt0) tables0.

(** The inner loop of the [forEach] callback, [n] iterations left.
    [guaranteed] is [guaranteedAvailableTable], possibly [undefined]. *)
Fixpoint bookSlots (guaranteed : option Table) (prompt0 : Prompt) (table : Table)
    (n : nat) (availableSlots : list string) (bookings0 : list BookingSlot)
    : M (list BookingSlot) :=
  match n with
  | O => ret bookings0
  | S n' =>
      if (0 <? Z.of_nat (length availableSlots)) then
        randomIndex0 <- randomIndex (Z.of_nat (length availableSlots)) ;;
        let slot := availableSlots !! randomIndex0 in
        let availableSlots' := delete randomIndex0 availableSlots in
        g <- defined guaranteed ;;
        time0 <- defined slot ;;
        if id table =? id g then
          let bookingEnd := addMinutes time0 90 in
          let promptEnd := addMinutes (time prompt0) 90 in
          if negb (timesOverlap time0 bookingEnd (time prompt0) promptEnd) then
            bookSlots guaranteed prompt0 table n' availableSlots'
              (bookings0 ++ [{| tableId := id table; startTime := time0;
                                endTime := bookingEnd |}])
          else bookSlots guaranteed prompt0 table n' availableSlots' bookings0
        else
          bookSlots guaranteed prompt0 table n' availableSlots'
            (bookings0 ++ [{| tableId := id table; startTime := time0;
                              endTime := addMinutes time0 90 |}])
      else ret bookings0
  end.

(** The [forEach] callback. *)
Definition bookTable (guaranteed : option Table) (prompt0 : Prompt) (table : Table)
    (bookings0 : list BookingSlot) : M (list BookingSlot) :=
  r <- random ;;
  let numBookings := floorMul r 4 in
  bookSlots guaranteed prompt0 table (Z.to_nat numBookings) AVAILABLE_TIMES bookings0.

(** The first half of [generateExperimentData]: the layout, the prompt and
    [guaranteedAvailableTable], which is [undefined] ([None]) when the index
    falls outside [suitableTables]. *)
Definition chooseGuaranteedTable : M (list Table * Prompt * option Table) :=
  tables0 <- generateTables ;;
  prompt0 <- generateRandomPrompt ;;
  let suitable := suitableTables tables0 prompt0 in
  k <- randomIndex (Z.of_nat (length suitable)) ;;
  ret (tables0, prompt0, suitable !! k).

Definition generateExperimentData (systemType0 : SystemType) : M ExperimentData :=
  chosen <- chooseGuaranteedTable ;;
  let '(tables0, prompt0, guaranteedAvailableTable) := chosen in
  bookings0 <- forEach (bookTable guaranteedAvailableTable prompt0) tables0 [] ;;
  ret {| systemType := systemType0; bookings := bookings0;
         tables := tables0; prompt := prompt0 |}.

(** ** Specification vocabulary *)

(** A sample stream of draws, the multiples of 1/16 in a fixed order. *)
Definition sampleRng (k : nat) : Rng :=
  fun i => (Z.of_nat ((7 * i + k) mod 16) # 16)%Q.

(** The value a computation returns on a stream of draws. *)
Definition run {A} (m : M A) (s : Rng) : option A := fst <$> m s.

(** [returns m P]: on every stream of draws in [0,1), [m] returns normally,
    with a value satisfying [P], and leaves such a stream. *)
Definition returns {A} (m : M A) (P : A -> Prop) : Prop :=
  forall s, valid s -> exists a s', m s = Some (a, s') /\ valid s' /\ P a.

(** The layout before the shuffle: [k] tables of capacity 4 followed by
    [12 - k] tables of capacity 6, with [4 <= k <= 8] and ids 1 to 12. *)
Definition filled (ts : list Table) : Prop :=
  exists (k : Z) (l4 l6 : list Table),
    4 <= k <= 8 /\ ts = l4 ++ l6 /\
    Z.of_nat (length l4) = k /\ Z.of_nat (length l6) = 12 - k /\
    Forall (fun t => capacity t = 4) l4 /\
    Forall (fun t => capacity t = 6) l6 /\
    id <$> ts = seqZ 1 12.

(** A layout: a rearrangement of a filled table list. *)
Definition layout (ts : list Table) : Prop := exists pre, filled pre /\ ts ≡ₚ pre.

(** The number of tables of capacity [c]. *)
Definition countCapacity (c : Z) (ts : list Table) : nat :=
  length (filter (fun t => capacity t = c) ts).

(** The bookings that reference table id [z]. *)
Definition bookingsOf (z : Z) (bks : list BookingSlot) : list BookingSlot :=
  filter (fun b => tableId b = z) bks.

Definition promptOk (p : Prompt) : Prop :=
  (partySize p = 4 \/ partySize p = 6) /\ time p ∈ AVAILABLE_TIMES.

(** The overlap rule on minute counts: [s1 < e2] and [s2 < e1]. *)
Definition overlapRule (start1 end1 start2 end2 : string) : Prop :=
  exists s1 e1 s2 e2 : Z,
    timeToMinutes start1 = Js.Num s1 /\ timeToMinutes end1 = Js.Num e1 /\
    timeToMinutes start2 = Js.Num s2 /\ timeToMinutes end2 = Js.Num e2 /\
    s1 < e2 /\ s2 < e1.

(** The booking does not overlap the interval of the prompt. *)
Definition clearsPrompt (prompt0 : Prompt) (b : BookingSlot) : Prop :=
  timesOverlap (startTime b) (endTime b)
               (time prompt0) (addMinutes (time prompt0) 90) = false.

(** One booking appended by the [forEach] callback for [table], from
    [slots]; [g] is the guaranteed table. *)
Definition booked (g : Table) (prompt0 : Prompt) (table : Table)
    (slots : list string) (b : BookingSlot) : Prop :=
  tableId b = id table /\
  endTime b = addMinutes (startTime b) 90 /\
  startTime b ∈ slots /\
  (id table = id g -> clearsPrompt prompt0 b).

(** The bookings the callback appends for [table] in [n] iterations. *)
Definition chunk (g : Table) (prompt0 : Prompt) (table : Table)
    (slots : list string) (n : nat) (new : list BookingSlot) : Prop :=
  Forall (booked g prompt0 table slots) new /\
  NoDup (startTime <$> new) /\
  (length new <= n)%nat.

Definition bookedAmong (g : Table) (prompt0 : Prompt) (seen : list Table)
    (b : BookingSlot) : Prop :=
  exists t, t ∈ seen /\ booked g prompt0 t AVAILABLE_TIMES b.

(** The invariant of the [forEach] loop, [seen] the tables visited. *)
Definition booking_inv (g : Table) (prompt0 : Prompt) (seen : list Table)
    (bks : list BookingSlot) : Prop :=
  Forall (bookedAmong g prompt0 seen) bks /\
  forall z, (length (bookingsOf z bks) <= 3)%nat /\
            NoDup (startTime <$> bookingsOf z bks).

(** What every generated scenario satisfies; [g] is the guaranteed table. *)
Definition scenario (d : ExperimentData) : Prop :=
  layout (tables d) /\ promptOk (prompt d) /\
  exists g, g ∈ suitableTables (tables d) (prompt d) /\
            booking_inv g (prompt d) (tables d) (bookings d).

(** A rendered time of day reads back as its hours and minutes, and has
    five characters. *)
Definition readsBack (h m : Z) : Prop :=
  splitTime (renderTime (Js.Num h) (Js.Num m)) = (Some (Js.Num h), Some (Js.Num m)) /\
  String.length (renderTime (Js.Num h) (Js.Num m)) = 5%nat.

#[local] Instance number_eq_dec : EqDecision Js.number.
Proof. solve_decision. Defined.

(** ** Further vocabulary *)

(** The time of day [n] minutes after midnight, as [addMinutes] renders it. *)
Definition ofMinutes (n : Z) : string :=
  renderTime (Js.Num ((n / 60) mod 24)) (Js.Num (n mod 60)).

(** The string has no colon. *)
Fixpoint colonless (s : string) : bool :=
  match s with
  | EmptyString => true
  | String.String c s' => negb (Ascii.eqb c ":") && colonless s'
  end.

(** The hour of the 12-hour clock. *)
Definition hour12 (h : Z) : Z :=
  if h =? 0 then 12 else if 12 <? h then h - 12 else h.

(** The display labels of the 1440 minutes of the day. *)
Definition dayLabels : list string :=
  (fun n => formatTimeForDisplay (ofMinutes n)) <$> seqZ 0 1440.

(** ** The table grid ([RestaurantGrid.svelte], [TableComponent.svelte]) *)

(** The cells of the grid, by table id: 3 rows of 4. *)
Definition gridLayout : list (list Z) :=
  [[1; 6; 7; 8];
   [2; 3; 9; 10];
   [4; 5; 11; 12]].

(** [tables.find(t => t.id === tableId)] *)
Definition findTable (tables0 : list Table) (tableId0 : Z) : option Table :=
  List.find (fun t => id t =? tableId0) tables0.

(** The tables the grid shows, row by row: a cell whose id is not found is
    not rendered. *)
Definition gridRows (tables0 : list Table) : list (list Table) :=
  map (fun row => omap (findTable tables0) row) gridLayout.

(** A [string | null] used as a condition: [null] and the empty string are
    false. *)
Definition truthy (s : option string) : bool :=
  match s with
  | Some EmptyString | None => false
  | Some _ => true
  end.

(** The [available] property the grid gives to the component of [table]:
    [selectedTime ? isTableAvailable(table.id, selectedTime, bookings) : false] *)
Definition cellAvailable (bookings0 : list BookingSlot) (selectedTime : option string)
    (table : Table) : bool :=
  match selectedTime with
  | Some t => if truthy selectedTime then isTableAvailable (id table) t bookings0 else false
  | None => false
  end.

(** The chair positions of [TableComponent], by capacity. *)
Definition chairs (table : Table) : list string :=
  if capacity table =? 4 then ["top"; "right"; "bottom"; "left"]
  else ["top"; "right-top"; "right-bottom"; "bottom"; "left-top"; "left-bottom"].

(** [handleClick] of [TableComponent]: the id given to [onSelect], if the
    click is passed on. *)
Definition handleClick (table : Table) (available : bool) (selectedTime : option string)
    : option Z :=
  if truthy selectedTime && available then Some (id table) else None.

(** [ensures m P]: whenever [m] returns, on any stream of draws, its value
    satisfies [P]. *)
Definition ensures {A} (m : M A) (P : A -> Prop) : Prop :=
  forall s a s', m s = Some (a, s') -> P a.

(** ** Experiment results ([types.ts]) *)

Module Result.

Record Trial := {
  system : SystemType;
  prompt : string;
  duration : Z
}.

Record ExperimentResult := {
  timestamp : string;
  firstSystem : SystemType;
  trial1 : Trial;
  trial2 : Trial
}.

End Result.

(** ** The experiment page ([+page.svelte])

    The reactive variables of the page are the fields of [State]; a handler
    is a function on states.  [Date.now()] and [new Date().toISOString()]
    are arguments of the handlers that read them. *)

Module Page.

Inductive Phase := Intro | Trial1 | Trial2 | Complete.

Record State := {
  experimentPhase : Phase;
  firstSystem : option SystemType;
  trial1Data : option ExperimentData;
  trial2Data : option ExperimentData;
  currentData : option ExperimentData;
  startTime : Z;
  trial1Duration : Z;
  trial2Duration : Z;
  selectedTime : option string;
  showNextButton : bool;
  submitting : bool;
  errorMessage : option string
}.

(** The state when the page loads. *)
Definition initial : State :=
  {| experimentPhase := Intro; firstSystem := None;
     trial1Data := None; trial2Data := None; currentData := None;
     startTime := 0; trial1Duration := 0; trial2Duration := 0;
     selectedTime := None; showNextButton := false; submitting := false;
     errorMessage := None |}.

Definition startExperiment (now : Z) (st : State) : M State :=
  r <- random ;;
  let firstSystem0 := if Qle_bool r (1 # 2) then text else coloured in
  data <- generateExperimentData firstSystem0 ;;
  ret {| experimentPhase := Trial1; firstSystem := Some firstSystem0;
         trial1Data := Some data; trial2Data := trial2Data st;
         currentData := Some data;
         startTime := now;
         trial1Duration := trial1Duration st; trial2Duration := trial2Duration st;
         selectedTime := None; showNextButton := false;
         submitting := submitting st; errorMessage := errorMessage st |}.

(** [selectedTime = target.value || null] *)
Definition handleTimeSelect (value : string) (st : State) : State :=
  {| experimentPhase := experimentPhase st; firstSystem := firstSystem st;
     trial1Data := trial1Data st; trial2Data := trial2Data st;
     currentData := currentData st;
     startTime := startTime st;
     trial1Duration := trial1Duration st; trial2Duration := trial2Duration st;
     selectedTime := if truthy (Some value) then Some value else None;
     showNextButton := showNextButton st;
     submitting := submitting st; errorMessage := errorMessage st |}.

Definition setErrorMessage (msg : option string) (st : State) : State :=
  {| experimentPhase := experimentPhase st; firstSystem := firstSystem st;
     trial1Data := trial1Data st; trial2Data := trial2Data st;
     currentData := currentData st;
     startTime := startTime st;
     trial1Duration := trial1Duration st; trial2Duration := trial2Duration st;
     selectedTime := selectedTime st; showNextButton := showNextButton st;
     submitting := submitting st; errorMessage := msg |}.

Definition notAvailableMessage : string :=
  "❌ Error: That table is not available at the selected time. Please try again.".

Definition wrongSizeMessage (partySize0 : Z) : string :=
  ("❌ Error: Wrong table size! You need a table for "
   ++ Js.String (Js.Num partySize0) ++ " people. Please try again.")%string.

Definition wrongTimeMessage (displayTime0 : string) : string :=
  ("❌ Error: Wrong time! You need to book for "
   ++ displayTime0 ++ ". Please try again.")%string.

(** [`Book a table for ${partySize} at ${displayTime}`] *)
Definition promptText (data : ExperimentData) : string :=
  ("Book a table for " ++ Js.String (Js.Num (partySize (prompt data)))
   ++ " at " ++ displayTime (prompt data))%string.

(** [saveResults] up to its [fetch]: the state, and the result posted if
    there is one. *)
Definition saveResults (iso : string) (st : State)
    : State * option Result.ExperimentResult :=
  match trial1Data st, trial2Data st, firstSystem st with
  | Some data1, Some data2, Some firstSystem0 =>
      ({| experimentPhase := experimentPhase st; firstSystem := firstSystem st;
          trial1Data := trial1Data st; trial2Data := trial2Data st;
          currentData := currentData st;
          startTime := startTime st;
          trial1Duration := trial1Duration st; trial2Duration := trial2Duration st;
          selectedTime := selectedTime st; showNextButton := showNextButton st;
          submitting := true; errorMessage := errorMessage st |},
       Some {| Result.timestamp := iso;
               Result.firstSystem := firstSystem0;
               Result.trial1 := {| Result.system := systemType data1;
                                   Result.prompt := promptText data1;
                                   Result.duration := trial1Duration st |};
               Result.trial2 := {| Result.system := systemType data2;
                                   Result.prompt := promptText data2;
                                   Result.duration := trial2Duration st |} |})
  | _, _, _ => (st, None)
  end.

(** How the [fetch] of [saveResults] ends. *)
Inductive FetchOutcome := ResponseOk | ResponseNotOk | FetchThrew.

(** [saveResults] after its [fetch]: the state, and whether an alert is
    shown. *)
Definition saveResultsSettled (outcome : FetchOutcome) (st : State) : State * bool :=
  ({| experimentPhase := match outcome with
                         | ResponseOk => Complete
                         | _ => experimentPhase st
                         end;
      firstSystem := firstSystem st;
      trial1Data := trial1Data st; trial2Data := trial2Data st;
      currentData := currentData st;
      startTime := startTime st;
      trial1Duration := trial1Duration st; trial2Duration := trial2Duration st;
      selectedTime := selectedTime st; showNextButton := showNextButton st;
      submitting := false; errorMessage := errorMessage st |},
   match outcome with ResponseOk => false | _ => true end).

Definition handleTableSelect (tableId0 : Z) (now : Z) (iso : string) (st : State)
    : State * option Result.ExperimentResult :=
  match currentData st, selectedTime st with
  | Some data, Some time0 =>
      if negb (truthy (Some time0)) then (st, None) else
      match findTable (tables data) tableId0 with
      | None => (st, None)
      | Some table =>
          if negb (isTableAvailable tableId0 time0 (bookings data)) then
            (setErrorMessage (Some notAvailableMessage) st, None)
          else if negb (capacity table =? partySize (prompt data)) then
            (setErrorMessage (Some (wrongSizeMessage (partySize (prompt data)))) st, None)
          else if negb (String.eqb time0 (time (prompt data))) then
            (setErrorMessage (Some (wrongTimeMessage (displayTime (prompt data)))) st, None)
          else
            let duration := now - startTime st in
            match experimentPhase st with
            | Trial1 =>
                ({| experimentPhase := experimentPhase st; firstSystem := firstSystem st;
                    trial1Data := trial1Data st; trial2Data := trial2Data st;
                    currentData := currentData st;
                    startTime := startTime st;
                    trial1Duration := duration; trial2Duration := trial2Duration st;
                    selectedTime := selectedTime st; showNextButton := true;
                    submitting := submitting st; errorMessage := None |}, None)
            | Trial2 =>
                saveResults iso
                  {| experimentPhase := experimentPhase st; firstSystem := firstSystem st;
                     trial1Data := trial1Data st; trial2Data := trial2Data st;
                     currentData := currentData st;
                     startTime := startTime st;
                     trial1Duration := trial1Duration st; trial2Duration := duration;
                     selectedTime := selectedTime st;
                     showNextButton := showNextButton st;
                     submitting := submitting st; errorMessage := None |}
            | _ => (setErrorMessage None st, None)
            end
      end
  | _, _ => (st, None)
  end.

Definition startTrial2 (now : Z) (st : State) : M State :=
  let secondSystem :=
    match firstSystem st with Some coloured => text | _ => coloured end in
  data <- generateExperimentData secondSystem ;;
  ret {| experimentPhase := Trial2; firstSystem := firstSystem st;
         trial1Data := trial1Data st; trial2Data := Some data;
         currentData := Some data;
         startTime := now;
         trial1Duration := trial1Duration st; trial2Duration := trial2Duration st;
         selectedTime := None; showNextButton := false;
         submitting := submitting st; errorMessage := None |}.

Definition resetExperiment (st : State) : State :=
  {| experimentPhase := Intro; firstSystem := None;
     trial1Data := None; trial2Data := None; currentData := None;
     startTime := startTime st;
     trial1Duration := 0; trial2Duration := 0;
     selectedTime := None; showNextButton := false;
     submitting := submitting st; errorMessage := None |}.

(** A click on the component of [table] in the grid: [handleClick] with the
    [available] property of the grid, its [onSelect] being
    [handleTableSelect].  The grid is rendered only when [currentData] is
    set. *)
Definition clickTable (table : Table) (now : Z) (iso : string) (st : State)
    : State * option Result.ExperimentResult :=
  match currentData st with
  | Some data =>
      match handleClick table (cellAvailable (bookings data) (selectedTime st) table)
                        (selectedTime st) with
      | Some tableId0 => handleTableSelect tableId0 now iso st
      | None => (st, None)
      end
  | None => (st, None)
  end.

End Page.

(** A small scenario and a state of the page in its first trial, for
    examples. *)
Definition sampleData : ExperimentData :=
  {| systemType := coloured;
     bookings := [{| tableId := 1; startTime := "19:00"; endTime := "20:30" |};
                  {| tableId := 2; startTime := "17:30"; endTime := "19:00" |}];
     tables := [{| id := 2; shape := square; capacity := 6 |};
                {| id := 1; shape := circle; capacity := 4 |}];
     prompt := {| partySize := 4; time := "17:00"; displayTime := "5PM" |} |}.

Definition sampleState : Page.State :=
  {| Page.experimentPhase := Page.Trial1; Page.firstSystem := Some coloured;
     Page.trial1Data := Some sampleData; Page.trial2Data := None;
     Page.currentData := Some sampleData;
     Page.startTime := 1000;
     Page.trial1Duration := 0; Page.trial2Duration := 0;
     Page.selectedTime := Some "17:00"; Page.showNextButton := false;
     Page.submitting := false; Page.errorMessage := None |}.

(** A state of the page in its second trial, a submission pending. *)
Definition sampleState2 : Page.State :=
  {| Page.experimentPhase := Page.Trial2; Page.firstSystem := Some text;
     Page.trial1Data := Some sampleData; Page.trial2Data := Some sampleData;
     Page.currentData := Some sampleData;
     Page.startTime := 20000;
     Page.trial1Duration := 3500; Page.trial2Duration := 0;
     Page.selectedTime := Some "17:00"; Page.showNextButton := false;
     Page.submitting := true; Page.errorMessage := None |}.

(** ** The analysis script ([analyze-results.js]) *)

Module Analysis.

(** What the first loop of [analyzeResults] collects. *)
Record Tally := {
  colouredFirst : nat;
  textFirst : nat;
  colouredDurations : list Z;
  textDurations : list Z
}.

(** The body of the loop. *)
Definition tallyResult (t : Tally) (result : Result.ExperimentResult) : Tally :=
  let t1 :=
    match Result.firstSystem result with
    | coloured =>
        {| colouredFirst := S (colouredFirst t); textFirst := textFirst t;
           colouredDurations := colouredDurations t; textDurations := textDurations t |}
    | text =>
        {| colouredFirst := colouredFirst t; textFirst := S (textFirst t);
           colouredDurations := colouredDurations t; textDurations := textDurations t |}
    end in
  let push (trial : Result.Trial) (t : Tally) : Tally :=
    match Result.system trial with
    | coloured =>
        {| colouredFirst := colouredFirst t; textFirst := textFirst t;
           colouredDurations := colouredDurations t ++ [Result.duration trial];
           textDurations := textDurations t |}
    | text =>
        {| colouredFirst := colouredFirst t; textFirst := textFirst t;
           colouredDurations := colouredDurations t;
           textDurations := textDurations t ++ [Result.duration trial] |}
    end in
  push (Result.trial2 result) (push (Result.trial1 result) t1).

Definition tally (results : list Result.ExperimentResult) : Tally :=
  fold_left tallyResult results
    {| colouredFirst := 0; textFirst := 0;
       colouredDurations := []; textDurations := [] |}.

(** [sorted[i]]: [undefined] ([None]) outside the array. *)
Definition at_index (sorted : list Z) (i : Z) : option Z :=
  if i <? 0 then None else sorted !! Z.to_nat i.

(** [median]; [None] is [NaN].  The durations are integers, so the sort with
    the comparator [a - b] returns them in ascending order, and the half sum
    is exact. *)
Definition median (values : list Z) : option Q :=
  let sorted := merge_sort Z.le values in
  let mid := Z.of_nat (length sorted) / 2 in
  if Z.of_nat (length sorted) mod 2 =? 0 then
    match at_index sorted (mid - 1), at_index sorted mid with
    | Some a, Some b => Some ((a + b) # 2)%Q
    | _, _ => None
    end
  else inject_Z <$> at_index sorted mid.

End Analysis.

(** Four durations, in milliseconds, for examples. *)
Definition sampleDurations : list Z := [5000; 1200; 3400; 2100].

(** ** Reasoning about the generators *)

Section Returns.
Context {A B : Type}.

Lemma returns_ret (a : A) (P : A -> Prop) : P a -> returns (ret a) P.
Proof. intros HP s Hs. exists a, s. auto. Qed.

Lemma returns_bind (m : M A) (f : A -> M B) (P : A -> Prop) (Q : B -> Prop) :
  returns m P -> (forall a, P a -> returns (f a) Q) -> returns (bind m f) Q.
Proof.
  intros Hm Hf s Hs.
  destruct (Hm s Hs) as (a & s1 & E1 & Hs1 & Ha).
  destruct (Hf a Ha s1 Hs1) as (b & s2 & E2 & Hs2 & Hb).
  exists b, s2. unfold bind. rewrite E1. auto.
Qed.

Lemma returns_mono (m : M A) (P P' : A -> Prop) :
  returns m P -> (forall a, P a -> P' a) -> returns m P'.
Proof.
  intros Hm HP s Hs. destruct (Hm s Hs) as (a & s1 & E1 & Hs1 & Ha).
  exists a, s1. auto.
Qed.

(** What [returns] says about one run. *)
Lemma returns_run (m : M A) (P : A -> Prop) (s : Rng) :
  returns m P -> valid s -> exists a, run m s = Some a /\ P a.
Proof.
  intros Hm Hs. destruct (Hm s Hs) as (a & s1 & E1 & _ & Ha).
  exists a. unfold run. rewrite E1. auto.
Qed.
End Returns.

Lemma valid_tail (s : Rng) : valid s -> valid (fun i => s (S i)).
Proof. intros Hs i. apply Hs. Qed.

Lemma returns_random : returns random (fun r => (0 <= r /\ r < 1)%Q).
Proof.
  intros s Hs. exists (s 0%nat), (fun i => s (S i)).
  split; [reflexivity|]. split; [now apply valid_tail | apply Hs].
Qed.

Lemma floorMul_range (r : Q) (n : Z) :
  (0 <= r)%Q -> (r < 1)%Q -> 0 < n -> 0 <= floorMul r n < n.
Proof.
  destruct r as [a b]. unfold Qle, Qlt, floorMul, Qfloor, Qmult, inject_Z. simpl.
  intros Ha Hb Hn.
  assert (Hd : Z.pos (b * 1) = Z.pos b) by (f_equal; lia).
  rewrite Hd. split.
  - apply Z.div_pos; nia.
  - apply Z.div_lt_upper_bound; nia.
Qed.

Lemma returns_randomIndex (n : nat) :
  (0 < n)%nat -> returns (randomIndex (Z.of_nat n)) (fun i => (i < n)%nat).
Proof.
  intros Hn. unfold randomIndex.
  eapply returns_bind; [apply returns_random|].
  intros r [H0 H1]. apply returns_ret.
  pose proof (floorMul_range r (Z.of_nat n) H0 H1). lia.
Qed.

Lemma returns_forEach {A S} (f : A -> S -> M S) (I : list A -> S -> Prop) (l : list A) :
  (forall seen a rest acc,
      l = seen ++ a :: rest -> I seen acc -> returns (f a acc) (I (seen ++ [a]))) ->
  forall acc, I [] acc -> returns (forEach f l acc) (I l).
Proof.
  intros Hf.
  assert (H : forall rest seen acc,
             l = seen ++ rest -> I seen acc -> returns (forEach f rest acc) (I l)).
  { induction rest as [|a rest IH]; intros seen acc El HI; simpl.
    - rewrite El, app_nil_r. now apply returns_ret.
    - apply (returns_bind _ _ (I (seen ++ [a]))); [now apply (Hf seen a rest)|].
      intros acc' HI'. apply (IH (seen ++ [a])); [|assumption].
      now rewrite <- app_assoc. }
  intros acc HI. now apply (H l []).
Qed.

(** ** The layout generator *)

Lemma returns_randomShape : returns randomShape (fun _ => True).
Proof.
  unfold randomShape. eapply returns_bind; [apply returns_random|].
  intros. now apply returns_ret.
Qed.

(** A filling loop appends [n] tables of capacity [cap], with the ids
    [i, i+1, ..., i+n-1], and leaves the counter at [i+n]. *)
Lemma returns_pushTables (n : nat) (cap : Z) :
  forall (ts : list Table) (i : Z),
    returns (pushTables n cap (ts, i))
      (fun st => exists new,
         st = (ts ++ new, i + Z.of_nat n) /\
         length new = n /\
         id <$> new = seqZ i (Z.of_nat n) /\
         Forall (fun t => capacity t = cap) new).
Proof.
  induction n as [|n IH]; intros ts i.
  - apply returns_ret. exists []. rewrite app_nil_r, Z.add_0_r. auto.
  - cbn [pushTables]. eapply returns_bind; [apply returns_randomShape|].
    intros sh _. eapply returns_mono; [apply IH|].
    intros st (new & -> & Hlen & Hids & Hcap).
    exists ({| id := i; shape := sh; capacity := cap |} :: new).
    split; [|split; [|split]].
    + rewrite <- app_assoc. simpl. f_equal. lia.
    + simpl. now rewrite Hlen.
    + rewrite fmap_cons, Hids. cbn [id]. rewrite (seqZ_cons i) by lia.
      f_equal. f_equal; lia.
    + constructor; auto.
Qed.

Lemma returns_fillTables : returns fillTables filled.
Proof.
  unfold fillTables. eapply returns_bind; [apply returns_random|].
  intros r [H0 H1]. pose proof (floorMul_range r 5 H0 H1 eq_refl) as Hr.
  set (k := 4 + floorMul r 5) in *.
  eapply returns_bind; [apply returns_pushTables|].
  intros st (l4 & -> & Hlen4 & Hid4 & Hcap4).
  eapply returns_bind; [apply returns_pushTables|].
  intros st (l6 & -> & Hlen6 & Hid6 & Hcap6).
  apply returns_ret. exists k, l4, l6. cbn [fst app].
  split; [lia|]. split; [reflexivity|].
  split; [lia|]. split; [lia|]. split; [assumption|]. split; [assumption|].
  rewrite fmap_app, Hid4, Hid6.
  replace (1 + Z.of_nat (Z.to_nat k)) with (1 + k) by lia.
  rewrite !Z2Nat.id by lia.
  replace 12 with (k + (12 - k)) at 2 by lia.
  rewrite seqZ_app by lia. reflexivity.
Qed.

Lemma insert_middle {A} (l1 l2 : list A) (x y : A) :
  <[length l1 := y]> (l1 ++ x :: l2) = l1 ++ y :: l2.
Proof. induction l1 as [|a l1 IH]; simpl; [reflexivity | now rewrite IH]. Qed.

(** The swap exchanges two elements of the list. *)
Lemma swap_lt_Permutation (i j : nat) (l : list Table) :
  (j < i)%nat -> swap i j l ≡ₚ l.
Proof.
  intros Hji. unfold swap.
  destruct (l !! i) as [ti|] eqn:Ei; [|reflexivity].
  destruct (l !! j) as [tj|] eqn:Ej; [|reflexivity].
  pose proof (lookup_lt_Some _ _ _ Ei) as Hi.
  assert (Hk : drop (S j) l !! (i - S j)%nat = Some ti).
  { rewrite lookup_drop. rewrite <- Ei. f_equal. lia. }
  set (l1 := take j l). set (l2 := take (i - S j) (drop (S j) l)).
  set (l3 := drop (S (i - S j)) (drop (S j) l)).
  assert (Hl : l = l1 ++ tj :: l2 ++ ti :: l3).
  { subst l1 l2 l3. now rewrite (take_drop_middle _ _ _ Hk), (take_drop_middle _ _ _ Ej). }
  assert (Hl1 : length l1 = j) by (apply length_take_le; lia).
  assert (Hl2 : length l2 = (i - S j)%nat).
  { apply length_take_le. rewrite length_drop. lia. }
  assert (Hi' : i = length (l1 ++ tj :: l2)).
  { rewrite length_app. simpl. lia. }
  rewrite Hl.
  replace (l1 ++ tj :: l2 ++ ti :: l3) with ((l1 ++ tj :: l2) ++ ti :: l3) at 1
    by now rewrite <- app_assoc.
  rewrite Hi', insert_middle, <- app_assoc. cbn [app].
  rewrite <- Hl1 at 1. rewrite insert_middle.
  apply Permutation_app_head.
  rewrite !(Permutation_middle l2). apply Permutation_app_head, perm_swap.
Qed.

Lemma swap_le_Permutation (i j : nat) (l : list Table) :
  (j <= i)%nat -> swap i j l ≡ₚ l.
Proof.
  intros Hji. destruct (decide (j = i)) as [->|Hne].
  - unfold swap. destruct (l !! i) as [ti|] eqn:Ei; [|reflexivity].
    now rewrite !(list_insert_id l i ti Ei).
  - apply swap_lt_Permutation. lia.
Qed.

Lemma returns_shuffleFrom (i : nat) :
  forall l : list Table, returns (shuffleFrom i l) (fun l' => l' ≡ₚ l).
Proof.
  induction i as [|i IH]; intros l.
  - now apply returns_ret.
  - cbn [shuffleFrom].
    replace (Z.of_nat (S i) + 1) with (Z.of_nat (S (S i))) by lia.
    eapply returns_bind; [apply returns_randomIndex; lia|].
    intros j Hj. cbv beta in Hj. eapply returns_mono; [apply IH|].
    intros l' Hl'. rewrite Hl'. apply swap_le_Permutation. lia.
Qed.

Lemma returns_shuffle (l : list Table) : returns (shuffle l) (fun l' => l' ≡ₚ l).
Proof. apply returns_shuffleFrom. Qed.

(** [generateTables] returns a rearrangement of a filled layout. *)
Lemma returns_generateTables :
  returns generateTables (fun ts => exists pre, filled pre /\ ts ≡ₚ pre).
Proof.
  unfold generateTables. eapply returns_bind; [apply returns_fillTables|].
  intros pre Hpre. eapply returns_mono; [apply returns_shuffle|].
  intros ts Hts. eauto.
Qed.

(** ** The scenario generator *)

Lemma returns_defined_bind {A B} (o : option A) (a : A) (f : A -> M B) (Q : B -> Prop) :
  o = Some a -> returns (f a) Q -> returns (bind (defined o) f) Q.
Proof.
  intros -> Hf. apply (returns_bind _ _ (eq a)); [now apply returns_ret|].
  now intros ? <-.
Qed.

Lemma delete_slot (slots : list string) (i : nat) (t : string) :
  NoDup slots -> slots !! i = Some t ->
  NoDup (delete i slots) /\ (t ∉ delete i slots) /\
  (forall x, x ∈ delete i slots -> x ∈ slots).
Proof.
  intros Hnd Et. pose proof (delete_Permutation _ _ _ Et) as Hp.
  rewrite Hp in Hnd. apply NoDup_cons in Hnd as [Hnot Hnd'].
  repeat split; auto. intros x Hx. rewrite Hp. now right.
Qed.

Section Booking.
Variables (g : Table) (prompt0 : Prompt).

Lemma chunk_nil table slots n : chunk g prompt0 table slots n [].
Proof. repeat split; [constructor | constructor | simpl; lia]. Qed.

Lemma chunk_skip table slots i t n new :
  NoDup slots -> slots !! i = Some t ->
  chunk g prompt0 table (delete i slots) n new -> chunk g prompt0 table slots (S n) new.
Proof.
  intros Hnd Et (Hall & Hnd' & Hlen).
  destruct (delete_slot _ _ _ Hnd Et) as (_ & _ & Hsub).
  repeat split; [|assumption|lia].
  eapply Forall_impl; [exact Hall|].
  intros b (? & ? & ? & ?). repeat split; auto.
Qed.

Lemma chunk_push table slots i t n new b :
  NoDup slots -> slots !! i = Some t ->
  booked g prompt0 table slots b -> startTime b = t ->
  chunk g prompt0 table (delete i slots) n new -> chunk g prompt0 table slots (S n) (b :: new).
Proof.
  intros Hnd Et Hb Hst Hc.
  destruct (delete_slot _ _ _ Hnd Et) as (_ & Hnot & _).
  destruct (chunk_skip _ _ _ _ _ _ Hnd Et Hc) as (Hall & Hnd' & Hlen).
  destruct Hc as (Hall' & _ & Hlen').
  repeat split; [now constructor| |simpl; lia].
  rewrite fmap_cons. apply NoDup_cons. split; [|assumption].
  rewrite Hst. intros Hin. apply Hnot.
  apply list_elem_of_fmap in Hin as (b' & -> & Hb').
  rewrite Forall_forall in Hall'. now apply Hall'.
Qed.

Lemma returns_bookSlots (table : Table) (n : nat) :
  forall (slots : list string) (bks : list BookingSlot),
    NoDup slots ->
    returns (bookSlots (Some g) prompt0 table n slots bks)
      (fun bks' => exists new, bks' = bks ++ new /\ chunk g prompt0 table slots n new).
Proof.
  induction n as [|n IH]; intros slots bks Hnd.
  - apply returns_ret. exists []. rewrite app_nil_r. split; [reflexivity|].
    apply chunk_nil.
  - cbn [bookSlots]. destruct (0 <? Z.of_nat (length slots)) eqn:Hlen.
    2:{ apply returns_ret. exists []. rewrite app_nil_r. split; [reflexivity|].
        apply chunk_nil. }
    apply Z.ltb_lt in Hlen.
    eapply returns_bind; [apply returns_randomIndex; lia|].
    intros i Hi. cbv beta in Hi.
    destruct (lookup_lt_is_Some_2 slots i Hi) as [t Et].
    apply (returns_defined_bind _ g); [reflexivity|].
    apply (returns_defined_bind _ t); [assumption|].
    destruct (delete_slot _ _ _ Hnd Et) as (Hnd' & _ & _).
    assert (Hin : t ∈ slots) by (apply list_elem_of_lookup; eauto).
    destruct (Z.eqb_spec (id table) (id g)) as [Eg|Ng].
    + destruct (timesOverlap t (addMinutes t 90) (time prompt0)
                  (addMinutes (time prompt0) 90)) eqn:Hov; cbn [negb].
      * eapply returns_mono; [apply (IH _ _ Hnd')|].
        intros bks' (new & -> & Hc). exists new. split; [reflexivity|].
        eapply chunk_skip; eauto.
      * eapply returns_mono; [apply (IH _ _ Hnd')|].
        intros bks' (new & -> & Hc). eexists (_ :: new).
        split; [now rewrite <- app_assoc|].
        eapply chunk_push; eauto. repeat split; auto.
    + eapply returns_mono; [apply (IH _ _ Hnd')|].
      intros bks' (new & -> & Hc). eexists (_ :: new).
      split; [now rewrite <- app_assoc|].
      eapply chunk_push; eauto. repeat split; auto. intros; contradiction.
Qed.

Lemma NoDup_AVAILABLE_TIMES : NoDup AVAILABLE_TIMES.
Proof. compute_done. Qed.

Lemma returns_bookTable (table : Table) (bks : list BookingSlot) :
  returns (bookTable (Some g) prompt0 table bks)
    (fun bks' => exists new, bks' = bks ++ new /\ chunk g prompt0 table AVAILABLE_TIMES 3 new).
Proof.
  unfold bookTable. eapply returns_bind; [apply returns_random|].
  intros r [H0 H1]. pose proof (floorMul_range r 4 H0 H1 eq_refl) as Hr.
  eapply returns_mono; [apply returns_bookSlots, NoDup_AVAILABLE_TIMES|].
  intros bks' (new & -> & Hall & Hnd & Hlen). exists new.
  repeat split; auto. lia.
Qed.
End Booking.

Lemma filter_all {A} (P : A -> Prop) `{!forall x, Decision (P x)} (l : list A) :
  Forall P l -> filter P l = l.
Proof.
  induction 1 as [|x l Hx _ IH]; [reflexivity|].
  now rewrite filter_cons_True, IH.
Qed.

Lemma filter_none {A} (P : A -> Prop) `{!forall x, Decision (P x)} (l : list A) :
  Forall (fun x => ~ P x) l -> filter P l = [].
Proof.
  induction 1 as [|x l Hx _ IH]; [reflexivity|].
  now rewrite filter_cons_False.
Qed.

Section Scenario.
Variables (g : Table) (prompt0 : Prompt) (ts : list Table).
Hypothesis ids_distinct : NoDup (id <$> ts).

Lemma booking_inv_nil : booking_inv g prompt0 [] [].
Proof. split; [constructor|]. intros z. split; [simpl; lia | constructor]. Qed.

Lemma booking_inv_step seen a rest bks new :
  ts = seen ++ a :: rest ->
  booking_inv g prompt0 seen bks ->
  chunk g prompt0 a AVAILABLE_TIMES 3 new ->
  booking_inv g prompt0 (seen ++ [a]) (bks ++ new).
Proof.
  intros Ets (Hall & Hper) (Hnew & Hnd & Hlen). split.
  - apply Forall_app. split.
    + eapply Forall_impl; [exact Hall|]. intros b (t & Ht & Hb).
      exists t. split; [|assumption]. apply elem_of_app. now left.
    + eapply Forall_impl; [exact Hnew|]. intros b Hb.
      exists a. split; [|assumption]. apply elem_of_app. right. now left.
  - intros z. unfold bookingsOf. rewrite filter_app.
    destruct (decide (z = id a)) as [->|Hz].
    + rewrite (filter_none _ bks), (filter_all _ new).
      * simpl. split; [lia | assumption].
      * eapply Forall_impl; [exact Hnew|]. now intros b (? & _).
      * eapply Forall_impl; [exact Hall|]. intros b (t & Ht & Hb & _) Eb.
        pose proof ids_distinct as Hids.
        rewrite Ets, fmap_app, fmap_cons in Hids.
        apply NoDup_app in Hids as (_ & Hdis & _).
        apply (Hdis (id t)); [now apply list_elem_of_fmap_2|].
        rewrite <- Hb, Eb. left.
    + rewrite (filter_none _ new), app_nil_r; [apply Hper|].
      eapply Forall_impl; [exact Hnew|]. intros b (Eb & _). congruence.
Qed.

Lemma returns_bookings :
  returns (forEach (bookTable (Some g) prompt0) ts []) (booking_inv g prompt0 ts).
Proof.
  apply returns_forEach; [|apply booking_inv_nil].
  intros seen a rest acc Ets Hinv.
  eapply returns_mono; [apply returns_bookTable|].
  intros bks' (new & -> & Hc). eapply booking_inv_step; eauto.
Qed.
End Scenario.

Lemma layout_ids (ts : list Table) : layout ts -> id <$> ts ≡ₚ seqZ 1 12.
Proof.
  intros (pre & (k & l4 & l6 & _ & _ & _ & _ & _ & _ & Hids) & Hp).
  now rewrite Hp, Hids.
Qed.

Lemma layout_ids_distinct (ts : list Table) : layout ts -> NoDup (id <$> ts).
Proof. intros H. rewrite (layout_ids ts H). apply NoDup_seqZ. Qed.

Lemma layout_length (ts : list Table) : layout ts -> length ts = 12%nat.
Proof.
  intros H. apply layout_ids, Permutation_length in H.
  now rewrite length_fmap, length_seqZ in H.
Qed.

Lemma layout_counts (ts : list Table) :
  layout ts ->
  exists k : nat, (4 <= k <= 8)%nat /\
    countCapacity 4 ts = k /\ countCapacity 6 ts = (12 - k)%nat.
Proof.
  intros (pre & (k & l4 & l6 & Hk & -> & H4 & H6 & Hc4 & Hc6 & _) & Hp).
  exists (length l4). unfold countCapacity. rewrite !Hp, !filter_app.
  rewrite (filter_all _ l4 Hc4), (filter_none _ l6), app_nil_r.
  - rewrite (filter_none _ l4), (filter_all _ l6 Hc6); [cbn [app]; lia|].
    eapply Forall_impl; [exact Hc4|]. intros t ->. discriminate.
  - eapply Forall_impl; [exact Hc6|]. intros t ->. discriminate.
Qed.

Lemma layout_capacities (ts : list Table) :
  layout ts -> Forall (fun t => capacity t = 4 \/ capacity t = 6) ts.
Proof.
  intros (pre & (k & l4 & l6 & _ & -> & _ & _ & Hc4 & Hc6 & _) & Hp).
  rewrite Hp. apply Forall_app. split.
  - eapply Forall_impl; [exact Hc4|]. auto.
  - eapply Forall_impl; [exact Hc6|]. auto.
Qed.

Lemma returns_generateRandomPrompt :
  returns generateRandomPrompt
    (fun p => (partySize p = 4 \/ partySize p = 6) /\
              time p ∈ AVAILABLE_TIMES /\
              displayTime p = formatTimeForDisplay (time p)).
Proof.
  unfold generateRandomPrompt.
  eapply returns_bind; [apply (returns_randomIndex 2); lia|].
  intros i Hi. cbv beta in Hi.
  destruct (lookup_lt_is_Some_2 [4; 6] i Hi) as [n En].
  apply (returns_defined_bind _ n); [assumption|].
  eapply returns_bind; [apply (returns_randomIndex 9); lia|].
  intros j Hj. cbv beta in Hj.
  destruct (lookup_lt_is_Some_2 AVAILABLE_TIMES j Hj) as [t Et].
  apply (returns_defined_bind _ t); [assumption|].
  apply returns_ret. cbn [partySize time displayTime].
  split; [|split; [|reflexivity]].
  - destruct i as [|[|i]]; simpl in En; [left|right|lia]; congruence.
  - apply list_elem_of_lookup. eauto.
Qed.

Lemma suitable_count (ts : list Table) (p : Prompt) :
  layout ts -> promptOk p -> (4 <= length (suitableTables ts p) <= 8)%nat.
Proof.
  intros Hl [Hp _]. destruct (layout_counts ts Hl) as (k & Hk & H4 & H6).
  unfold countCapacity in H4, H6. unfold suitableTables.
  destruct Hp as [-> | ->]; [rewrite H4 | rewrite H6]; lia.
Qed.

Lemma returns_chooseGuaranteedTable :
  returns chooseGuaranteedTable
    (fun chosen => exists ts p g,
       chosen = (ts, p, Some g) /\ layout ts /\ promptOk p /\
       g ∈ suitableTables ts p).
Proof.
  unfold chooseGuaranteedTable.
  eapply returns_bind; [apply returns_generateTables|].
  intros ts Hts. eapply returns_bind; [apply returns_generateRandomPrompt|].
  intros p (Hsize & Htime & _).
  assert (Hp : promptOk p) by (split; assumption).
  pose proof (suitable_count ts p Hts Hp) as Hn.
  eapply returns_bind; [apply returns_randomIndex; lia|].
  intros k Hk. cbv beta in Hk. apply returns_ret.
  destruct (lookup_lt_is_Some_2 _ k Hk) as [g Eg].
  exists ts, p, g. rewrite Eg. repeat split; auto.
  apply list_elem_of_lookup. eauto.
Qed.

Lemma returns_generateExperimentData (systemType0 : SystemType) :
  returns (generateExperimentData systemType0)
    (fun d => systemType d = systemType0 /\ scenario d).
Proof.
  unfold generateExperimentData.
  eapply returns_bind; [apply returns_chooseGuaranteedTable|].
  intros chosen (ts & p & g & -> & Hts & Hp & Hg).
  eapply returns_bind; [apply (returns_bookings g p ts), layout_ids_distinct, Hts|].
  intros bks Hinv. apply returns_ret.
  split; [reflexivity|]. unfold scenario. cbn [tables prompt bookings]. eauto.
Qed.

Lemma sampleRng_valid (k : nat) : valid (sampleRng k).
Proof.
  intros i. unfold sampleRng, Qle, Qlt. simpl.
  pose proof (Nat.mod_upper_bound (7 * i + k) 16). lia.
Qed.

(** ** Time arithmetic *)

Lemma lt_Num (a b : Js.number) :
  Js.lt a b = true <-> exists x y, a = Js.Num x /\ b = Js.Num y /\ x < y.
Proof.
  destruct a as [|x], b as [|y]; simpl; split;
    try discriminate; try (intros (? & ? & ? & ? & ?); discriminate).
  - intros H. exists x, y. apply Z.ltb_lt in H. auto.
  - intros (x' & y' & [= ->] & [= ->] & H). now apply Z.ltb_lt.
Qed.

Lemma timesOverlap_sym (a b c d : string) :
  timesOverlap a b c d = timesOverlap c d a b.
Proof. unfold timesOverlap. apply andb_comm. Qed.

Lemma timesOverlap_rule (a b c d : string) :
  timesOverlap a b c d = true <-> overlapRule a b c d.
Proof.
  unfold timesOverlap, overlapRule. rewrite andb_true_iff, !lt_Num. split.
  - intros [(s1 & e2 & -> & -> & H1) (s2 & e1 & -> & -> & H2)].
    exists s1, e1, s2, e2. auto 10.
  - intros (s1 & e1 & s2 & e2 & -> & -> & -> & -> & H1 & H2). split; eauto.
Qed.

(** Every bookable slot is a number of minutes, and 90 minutes later is
    still the same day. *)
Lemma slot_minutes (t : string) :
  t ∈ AVAILABLE_TIMES ->
  exists m, timeToMinutes t = Js.Num m /\
            timeToMinutes (addMinutes t 90) = Js.Num (m + 90) /\
            0 <= m /\ m + 90 < 1440.
Proof.
  intros Ht. unfold AVAILABLE_TIMES in Ht.
  repeat (apply elem_of_cons in Ht as [-> | Ht];
          [eexists; split; [vm_compute; reflexivity|];
           split; [vm_compute; reflexivity | lia]|]).
  now apply elem_of_nil in Ht.
Qed.

Lemma readsBack_day :
  Forall (fun h => Forall (fun m => readsBack h m) (seqZ 0 60)) (seqZ 0 24).
Proof. unfold readsBack. compute_done. Qed.

Lemma renderTime_readsBack (h m : Z) : 0 <= h < 24 -> 0 <= m < 60 -> readsBack h m.
Proof.
  intros Hh Hm. pose proof readsBack_day as H.
  rewrite Forall_forall in H. specialize (H h).
  rewrite Forall_forall in H. apply H; apply elem_of_seqZ; lia.
Qed.

Lemma isTableAvailable_true (z : Z) (t : string) (bks : list BookingSlot) :
  isTableAvailable z t bks = true <->
  Forall (fun b => tableId b = z ->
                   timesOverlap t (addMinutes t 90) (startTime b) (endTime b) = false) bks.
Proof.
  unfold isTableAvailable. rewrite negb_true_iff.
  induction bks as [|b bks IH]; simpl.
  - split; [constructor | reflexivity].
  - rewrite orb_false_iff, IH, Forall_cons, andb_false_iff, Z.eqb_neq.
    apply and_iff_compat_r. split.
    + intros [Hne | Hov] Eb; [contradiction | assumption].
    + intros H. destruct (decide (tableId b = z)); auto.
Qed.

(** ** The claims *)

Example split_time : Js.split ":" "17:30" = ["17"; "30"].
Proof. reflexivity. Qed.

Example number_of_digits : map Js.Number ["17"; "00"; ""; "x"] =
  [Js.Num 17; Js.Num 0; Js.Num 0; Js.NaN].
Proof. reflexivity. Qed.

Example display_half_past : formatTimeForDisplay "17:30" = "5:30PM".
Proof. reflexivity. Qed.

Example display_midnight : formatTimeForDisplay "00:00" = "12AM".
Proof. reflexivity. Qed.

Example overlap_at_boundary : timesOverlap "17:00" "18:30" "18:30" "20:00" = false.
Proof. reflexivity. Qed.

Example sample_layout :
  id <$> default [] (run generateTables (sampleRng 3)) =
  [10; 7; 3; 9; 5; 12; 1; 6; 2; 8; 4; 11].
Proof. vm_compute. reflexivity. Qed.

Example sample_prompt :
  prompt <$> run (generateExperimentData text) (sampleRng 3) =
  Some {| partySize := 6; time := "17:30"; displayTime := "5:30PM" |}.
Proof. vm_compute. reflexivity. Qed.

(** C1. Every scenario returned by [generateExperimentData], for either
    display mode and any draws, has a table whose capacity is the party size
    of the prompt and which [isTableAvailable] reports free at the time of
    the prompt: none of its bookings overlaps the 90 minutes from that time. *)
Theorem guaranteed_table_available (systemType0 : SystemType) (s : Rng) :
  valid s ->
  exists d, run (generateExperimentData systemType0) s = Some d /\
    exists t, t ∈ tables d /\
      capacity t = partySize (prompt d) /\
      isTableAvailable (id t) (time (prompt d)) (bookings d) = true /\
      Forall (fun b => tableId b = id t ->
                ~ overlapRule (time (prompt d)) (addMinutes (time (prompt d)) 90)
                              (startTime b) (endTime b))
             (bookings d).
Proof.
  intros Hs.
  destruct (returns_run _ _ s (returns_generateExperimentData systemType0) Hs)
    as (d & Hrun & _ & _ & _ & g & Hg & Hall & _).
  exists d. split; [assumption|]. exists g.
  apply list_elem_of_filter in Hg as [Hcap Hin].
  assert (Hfree : Forall (fun b => tableId b = id g ->
            timesOverlap (time (prompt d)) (addMinutes (time (prompt d)) 90)
                         (startTime b) (endTime b) = false) (bookings d)).
  { eapply Forall_impl; [exact Hall|].
    intros b (t & _ & Eb & _ & _ & Hclear) Ebg.
    rewrite timesOverlap_sym. apply Hclear. congruence. }
  repeat split; auto.
  - now apply isTableAvailable_true.
  - eapply Forall_impl; [exact Hfree|]. intros b Hb Eb Hov.
    apply timesOverlap_rule in Hov. rewrite (Hb Eb) in Hov. discriminate.
Qed.

Lemma guaranteed_table_available_witness :
  valid (sampleRng 3) /\
  exists d, run (generateExperimentData text) (sampleRng 3) = Some d /\
    exists t, t ∈ tables d /\
      capacity t = partySize (prompt d) /\
      isTableAvailable (id t) (time (prompt d)) (bookings d) = true /\
      Forall (fun b => tableId b = id t ->
                ~ overlapRule (time (prompt d)) (addMinutes (time (prompt d)) 90)
                              (startTime b) (endTime b))
             (bookings d).
Proof.
  split; [apply sampleRng_valid|].
  apply (guaranteed_table_available text (sampleRng 3)), sampleRng_valid.
Defined.

(** C2. [isTableAvailable tableId time bookings] is false exactly when some
    booking of the list has that table id and an interval that overlaps
    [time, time + 90 min) under the rule [s1 < e2] and [s2 < e1] on minute
    counts; it is true otherwise, in particular when no booking of the list
    references the table, and on the empty list. *)
Theorem isTableAvailable_overlap_rule (z : Z) (t : string) (bks : list BookingSlot) :
  (isTableAvailable z t bks = false <->
   exists b, b ∈ bks /\ tableId b = z /\
             overlapRule t (addMinutes t 90) (startTime b) (endTime b)) /\
  (isTableAvailable z t bks = true <->
   ~ exists b, b ∈ bks /\ tableId b = z /\
               overlapRule t (addMinutes t 90) (startTime b) (endTime b)) /\
  ((forall b, b ∈ bks -> tableId b <> z) -> isTableAvailable z t bks = true) /\
  isTableAvailable z t [] = true.
Proof.
  assert (Htrue : isTableAvailable z t bks = true <->
            ~ exists b, b ∈ bks /\ tableId b = z /\
                        overlapRule t (addMinutes t 90) (startTime b) (endTime b)).
  { rewrite isTableAvailable_true, Forall_forall. split.
    - intros H (b & Hin & Eb & Hov). apply timesOverlap_rule in Hov.
      rewrite (H b Hin Eb) in Hov. discriminate.
    - intros H b Hin Eb. apply not_true_is_false. intros Hov.
      apply H. exists b. rewrite <- timesOverlap_rule. auto. }
  split; [|split; [exact Htrue|split; [|reflexivity]]].
  - rewrite <- not_true_iff_false, Htrue. split.
    + intros H. destruct (decide (Exists (fun b => tableId b = z /\
          timesOverlap t (addMinutes t 90) (startTime b) (endTime b) = true) bks))
        as [Hex | Hno].
      * apply Exists_exists in Hex as (b & Hin & Eb & Hov).
        exists b. rewrite <- timesOverlap_rule. auto.
      * exfalso. apply H. intros (b & Hin & Eb & Hov). apply Hno.
        apply Exists_exists. exists b. rewrite timesOverlap_rule. auto.
    + intros H Hno. contradiction.
  - intros Hnone. apply Htrue. intros (b & Hin & Eb & _). now apply (Hnone b).
Qed.

Lemma isTableAvailable_overlap_rule_witness :
  isTableAvailable 2 "17:00"
    [{| tableId := 1; startTime := "17:00"; endTime := "18:30" |}] = true.
Proof.
  destruct (isTableAvailable_overlap_rule 2 "17:00"
              [{| tableId := 1; startTime := "17:00"; endTime := "18:30" |}])
    as (_ & _ & Hnone & _).
  apply Hnone. intros b Hb. apply list_elem_of_singleton in Hb. subst b. simpl. lia.
Defined.

(** C3. For every stream of draws, [generateTables] returns exactly 12
    tables; the tables of capacity 4 number between 4 and 8, so do the tables
    of capacity 6, the two counts add up to 12, and every table has capacity
    4 or 6. *)
Theorem generateTables_counts (s : Rng) :
  valid s ->
  exists ts, run generateTables s = Some ts /\
    length ts = 12%nat /\
    (4 <= countCapacity 4 ts <= 8)%nat /\
    (4 <= countCapacity 6 ts <= 8)%nat /\
    (countCapacity 4 ts + countCapacity 6 ts = 12)%nat /\
    Forall (fun t => capacity t = 4 \/ capacity t = 6) ts.
Proof.
  intros Hs.
  destruct (returns_run _ _ s returns_generateTables Hs) as (ts & Hrun & Hl).
  exists ts. split; [assumption|].
  destruct (layout_counts ts Hl) as (k & Hk & -> & ->).
  split; [now apply layout_length|].
  repeat split; try lia. now apply layout_capacities.
Qed.

Lemma generateTables_counts_witness :
  valid (sampleRng 5) /\
  exists ts, run generateTables (sampleRng 5) = Some ts /\
    length ts = 12%nat /\
    (4 <= countCapacity 4 ts <= 8)%nat /\
    (4 <= countCapacity 6 ts <= 8)%nat /\
    (countCapacity 4 ts + countCapacity 6 ts = 12)%nat /\
    Forall (fun t => capacity t = 4 \/ capacity t = 6) ts.
Proof.
  split; [apply sampleRng_valid|].
  apply (generateTables_counts (sampleRng 5)), sampleRng_valid.
Defined.

(** C4, as the code has it. With the single booking of table 1 from 17:00
    to 18:30, table 1 is not available at 17:00, is available at 18:30 (the
    interval is half open), is not available at 16:00 (the 90 minutes from
    16:00 run to 17:30 and overlap the booking), and table 2 is available at
    17:00. *)
Theorem isTableAvailable_examples :
  let bookings0 := [{| tableId := 1; startTime := "17:00"; endTime := "18:30" |}] in
  isTableAvailable 1 "17:00" bookings0 = false /\
  isTableAvailable 1 "18:30" bookings0 = true /\
  isTableAvailable 1 "16:00" bookings0 = false /\
  isTableAvailable 2 "17:00" bookings0 = true.
Proof. repeat split; vm_compute; reflexivity. Qed.

(** C4 as stated fails: it takes table 1 to be available at 16:00. *)
Lemma isTableAvailable_examples_as_stated_fails :
  ~ (let bookings0 := [{| tableId := 1; startTime := "17:00"; endTime := "18:30" |}] in
     isTableAvailable 1 "17:00" bookings0 = false /\
     isTableAvailable 1 "18:30" bookings0 = true /\
     isTableAvailable 1 "16:00" bookings0 = true /\
     isTableAvailable 2 "17:00" bookings0 = true).
Proof. intros (_ & _ & H & _). vm_compute in H. discriminate. Qed.

(** C5. In every run of [generateExperimentData] the tables whose capacity
    is the party size of the prompt are not empty, and the table read at the
    random index is defined: the run does not fail. *)
Theorem suitable_tables_nonempty (systemType0 : SystemType) (s : Rng) :
  valid s ->
  (exists ts p g,
     run chooseGuaranteedTable s = Some (ts, p, Some g) /\
     suitableTables ts p <> [] /\
     g ∈ suitableTables ts p) /\
  (forall ts p (r : Q),
     layout ts -> promptOk p -> (0 <= r)%Q -> (r < 1)%Q ->
     is_Some (suitableTables ts p
                !! Z.to_nat (floorMul r (Z.of_nat (length (suitableTables ts p)))))) /\
  is_Some (run (generateExperimentData systemType0) s).
Proof.
  intros Hs. split; [|split].
  - destruct (returns_run _ _ s returns_chooseGuaranteedTable Hs)
      as (chosen & Hrun & ts & p & g & -> & Hts & Hp & Hg).
    exists ts, p, g. repeat split; auto.
    intros E. rewrite E in Hg. now apply elem_of_nil in Hg.
  - intros ts p r Hts Hp H0 H1. apply lookup_lt_is_Some_2.
    pose proof (suitable_count ts p Hts Hp).
    pose proof (floorMul_range r (Z.of_nat (length (suitableTables ts p))) H0 H1).
    lia.
  - destruct (returns_run _ _ s (returns_generateExperimentData systemType0) Hs)
      as (d & -> & _). eauto.
Qed.

Lemma suitable_tables_nonempty_witness :
  valid (sampleRng 1) /\
  exists ts p g,
    run chooseGuaranteedTable (sampleRng 1) = Some (ts, p, Some g) /\
    suitableTables ts p <> [] /\
    g ∈ suitableTables ts p.
Proof.
  split; [apply sampleRng_valid|].
  apply (suitable_tables_nonempty text (sampleRng 1)), sampleRng_valid.
Defined.



(** C7. In every scenario returned by [generateExperimentData], every
    booking has the id of a table of the scenario, and its end time is its
    start time plus 90 minutes. *)
Theorem bookings_reference_tables (systemType0 : SystemType) (s : Rng) :
  valid s ->
  exists d, run (generateExperimentData systemType0) s = Some d /\
    Forall (fun b => (exists t, t ∈ tables d /\ tableId b = id t) /\
                     endTime b = addMinutes (startTime b) 90)
           (bookings d).
Proof.
  intros Hs.
  destruct (returns_run _ _ s (returns_generateExperimentData systemType0) Hs)
    as (d & Hrun & _ & _ & _ & g & _ & Hall & _).
  exists d. split; [assumption|].
  eapply Forall_impl; [exact Hall|].
  intros b (t & Ht & Eb & Eend & _). eauto.
Qed.

Lemma bookings_reference_tables_witness :
  valid (sampleRng 8) /\
  exists d, run (generateExperimentData coloured) (sampleRng 8) = Some d /\
    Forall (fun b => (exists t, t ∈ tables d /\ tableId b = id t) /\
                     endTime b = addMinutes (startTime b) 90)
           (bookings d).
Proof.
  split; [apply sampleRng_valid|].
  apply (bookings_reference_tables coloured (sampleRng 8)), sampleRng_valid.
Defined.

(** C8. In every scenario returned by [generateExperimentData], each table
    of the scenario has at most 3 bookings, with pairwise distinct start
    times, and every booking starts at one of the nine slots from 17:00 to
    21:00, 30 minutes apart. *)
Theorem bookings_per_table (systemType0 : SystemType) (s : Rng) :
  valid s ->
  exists d, run (generateExperimentData systemType0) s = Some d /\
    (forall t, t ∈ tables d ->
       (length (bookingsOf (id t) (bookings d)) <= 3)%nat /\
       NoDup (startTime <$> bookingsOf (id t) (bookings d))) /\
    Forall (fun b => startTime b ∈ AVAILABLE_TIMES) (bookings d) /\
    timeToMinutes <$> AVAILABLE_TIMES =
      (fun i => Js.Num (17 * 60 + 30 * i)) <$> seqZ 0 9.
Proof.
  intros Hs.
  destruct (returns_run _ _ s (returns_generateExperimentData systemType0) Hs)
    as (d & Hrun & _ & _ & _ & g & _ & Hall & Hper).
  exists d. split; [assumption|]. split; [|split; [|reflexivity]].
  - intros t _. apply Hper.
  - eapply Forall_impl; [exact Hall|]. now intros b (t & _ & _ & _ & Hin & _).
Qed.

Lemma bookings_per_table_witness :
  valid (sampleRng 11) /\
  exists d, run (generateExperimentData text) (sampleRng 11) = Some d /\
    (forall t, t ∈ tables d ->
       (length (bookingsOf (id t) (bookings d)) <= 3)%nat /\
       NoDup (startTime <$> bookingsOf (id t) (bookings d))) /\
    Forall (fun b => startTime b ∈ AVAILABLE_TIMES) (bookings d) /\
    timeToMinutes <$> AVAILABLE_TIMES =
      (fun i => Js.Num (17 * 60 + 30 * i)) <$> seqZ 0 9.
Proof.
  split; [apply sampleRng_valid|].
  apply (bookings_per_table text (sampleRng 11)), sampleRng_valid.
Defined.

(** C9. For every stream of draws, the 12 tables returned by
    [generateTables] have pairwise distinct ids, which are exactly 1 to 12;
    the tables are those filled in before the shuffle, rearranged: the
    shuffle of any list returns a permutation of it. *)
Theorem generateTables_ids (s : Rng) :
  valid s ->
  (exists pre ts,
     run fillTables s = Some pre /\ run generateTables s = Some ts /\
     id <$> pre = seqZ 1 12 /\ ts ≡ₚ pre /\
     length ts = 12%nat /\ NoDup (id <$> ts) /\
     forall z, z ∈ id <$> ts <-> 1 <= z <= 12) /\
  (forall l, exists l', run (shuffle l) s = Some l' /\ l' ≡ₚ l).
Proof.
  intros Hs. split.
  - destruct (returns_fillTables s Hs) as (pre & s1 & E1 & Hs1 & Hpre).
    destruct (returns_shuffle pre s1 Hs1) as (ts & s2 & E2 & _ & Hp).
    assert (Hl : layout ts) by (exists pre; auto).
    exists pre, ts. unfold run, generateTables, bind. rewrite E1, E2.
    split; [reflexivity|]. split; [reflexivity|].
    destruct Hpre as (k & l4 & l6 & _ & _ & _ & _ & _ & _ & Hids).
    split; [assumption|]. split; [assumption|].
    split; [now apply layout_length|].
    split; [now apply layout_ids_distinct|].
    intros z. rewrite (layout_ids ts Hl), elem_of_seqZ. lia.
  - intros l. apply returns_run; [apply returns_shuffle | assumption].
Qed.

Lemma generateTables_ids_witness :
  valid (sampleRng 2) /\
  exists pre ts,
    run fillTables (sampleRng 2) = Some pre /\
    run generateTables (sampleRng 2) = Some ts /\
    id <$> pre = seqZ 1 12 /\ ts ≡ₚ pre /\
    length ts = 12%nat /\ NoDup (id <$> ts) /\
    forall z, z ∈ id <$> ts <-> 1 <= z <= 12.
Proof.
  split; [apply sampleRng_valid|].
  apply (generateTables_ids (sampleRng 2)), sampleRng_valid.
Defined.

(** C10. For every slot [t] of [AVAILABLE_TIMES], the minute count of
    [addMinutes t 90] is that of [t] plus 90, so the addition does not wrap
    past midnight; hence every booking of a scenario returned by
    [generateExperimentData] starts strictly before it ends. *)
Theorem slots_do_not_wrap (systemType0 : SystemType) (s : Rng) :
  valid s ->
  (forall t, t ∈ AVAILABLE_TIMES ->
     exists m, timeToMinutes t = Js.Num m /\
               timeToMinutes (addMinutes t 90) = Js.Num (m + 90) /\
               m + 90 < 24 * 60) /\
  exists d, run (generateExperimentData systemType0) s = Some d /\
    Forall (fun b => exists m e,
              timeToMinutes (startTime b) = Js.Num m /\
              timeToMinutes (endTime b) = Js.Num e /\ m < e /\
              Js.lt (timeToMinutes (startTime b)) (timeToMinutes (endTime b)) = true)
           (bookings d).
Proof.
  intros Hs. split.
  - intros t Ht. destruct (slot_minutes t Ht) as (m & E1 & E2 & _ & Hm). eauto.
  - destruct (returns_run _ _ s (returns_generateExperimentData systemType0) Hs)
      as (d & Hrun & _ & _ & _ & g & _ & Hall & _).
    exists d. split; [assumption|].
    eapply Forall_impl; [exact Hall|].
    intros b (t & _ & _ & Eend & Hin & _).
    destruct (slot_minutes _ Hin) as (m & E1 & E2 & _ & _).
    exists m, (m + 90). rewrite Eend, E1, E2.
    repeat split; [lia|]. simpl. apply Z.ltb_lt. lia.
Qed.

Lemma slots_do_not_wrap_witness :
  valid (sampleRng 14) /\
  exists d, run (generateExperimentData coloured) (sampleRng 14) = Some d /\
    Forall (fun b => exists m e,
              timeToMinutes (startTime b) = Js.Num m /\
              timeToMinutes (endTime b) = Js.Num e /\ m < e /\
              Js.lt (timeToMinutes (startTime b)) (timeToMinutes (endTime b)) = true)
           (bookings d).
Proof.
  split; [apply sampleRng_valid|].
  apply (slots_do_not_wrap coloured (sampleRng 14)), sampleRng_valid.
Defined.

(** ** Further properties of the time utilities *)

Lemma renderTime_ofMinutes (h m : Z) :
  0 <= h < 24 -> 0 <= m < 60 ->
  renderTime (Js.Num h) (Js.Num m) = ofMinutes (h * 60 + m).
Proof.
  intros Hh Hm. unfold ofMinutes. f_equal; f_equal.
  - replace (h * 60 + m) with (m + h * 60) by lia.
    rewrite Z.div_add, (Z.div_small m 60), Z.mod_small by lia. reflexivity.
  - replace (h * 60 + m) with (m + h * 60) by lia.
    rewrite Z.mod_add, Z.mod_small by lia. reflexivity.
Qed.

Lemma ofMinutes_range (n : Z) :
  0 <= (n / 60) mod 24 < 24 /\ 0 <= n mod 60 < 60.
Proof. split; apply Z.mod_pos_bound; reflexivity. Qed.

Lemma splitTime_ofMinutes (n : Z) :
  splitTime (ofMinutes n) = (Some (Js.Num ((n / 60) mod 24)), Some (Js.Num (n mod 60))).
Proof.
  destruct (ofMinutes_range n) as [H1 H2].
  now destruct (renderTime_readsBack _ _ H1 H2).
Qed.

Lemma ofMinutes_total (n : Z) : ((n / 60) mod 24) * 60 + n mod 60 = n mod 1440.
Proof. Z.div_mod_to_equations. lia. Qed.

Lemma addMinutes_ofMinutes (n k : Z) :
  0 <= n -> 0 <= k -> addMinutes (ofMinutes n) k = ofMinutes (n + k).
Proof.
  intros Hn Hk. unfold addMinutes. rewrite splitTime_ofMinutes.
  cbn [Js.toNumber Js.add Js.mul Js.rem Js.floorDiv Js.lift2].
  rewrite ofMinutes_total.
  pose proof (Z.mod_pos_bound n 1440 eq_refl) as Hmod.
  assert (0 <= (n mod 1440 + k) / 60) by (apply Z.div_pos; lia).
  rewrite !Z.rem_mod_nonneg by lia.
  unfold ofMinutes. f_equal; f_equal; Z.div_mod_to_equations; lia.
Qed.

Lemma timeToMinutes_ofMinutes (n : Z) :
  timeToMinutes (ofMinutes n) = Js.Num (n mod 1440).
Proof.
  unfold timeToMinutes. rewrite splitTime_ofMinutes.
  cbn [Js.toNumber Js.add Js.mul Js.lift2]. now rewrite ofMinutes_total.
Qed.

Lemma minutes_renderTime (h m : Z) :
  0 <= h < 24 -> 0 <= m < 60 ->
  timeToMinutes (renderTime (Js.Num h) (Js.Num m)) = Js.Num (h * 60 + m).
Proof.
  intros Hh Hm. rewrite renderTime_ofMinutes, timeToMinutes_ofMinutes by lia.
  f_equal. apply Z.mod_small. lia.
Qed.

Lemma minutes_addMinutes (h m k : Z) :
  0 <= h < 24 -> 0 <= m < 60 -> 0 <= k ->
  timeToMinutes (addMinutes (renderTime (Js.Num h) (Js.Num m)) k) =
  Js.Num ((h * 60 + m + k) mod 1440).
Proof.
  intros Hh Hm Hk.
  rewrite renderTime_ofMinutes, addMinutes_ofMinutes, timeToMinutes_ofMinutes by lia.
  reflexivity.
Qed.

(** X1. A rendered time of day converts to its number of minutes: hours
    times 60 plus minutes. *)
Theorem timeToMinutes_renderTime (h m : Z) :
  0 <= h < 24 -> 0 <= m < 60 ->
  timeToMinutes (renderTime (Js.Num h) (Js.Num m)) = Js.Num (h * 60 + m).
Proof.
  exact (minutes_renderTime h m).
Qed.

Lemma timeToMinutes_renderTime_witness :
  timeToMinutes (renderTime (Js.Num 7) (Js.Num 5)) = Js.Num 425.
Proof. apply (timeToMinutes_renderTime 7 5); lia. Defined.








Lemma split_colonless (s : string) : colonless s = true -> Js.split ":" s = [s].
Proof.
  induction s as [|c s IH]; simpl; [reflexivity|].
  intros [Hc Hs]%andb_true_iff. apply negb_true_iff in Hc.
  now rewrite Hc, (IH Hs).
Qed.

Lemma timeToMinutes_colonless (s : string) :
  colonless s = true -> timeToMinutes s = Js.NaN.
Proof.
  intros Hs. unfold timeToMinutes, splitTime. rewrite (split_colonless s Hs).
  simpl. now destruct (Js.Number s).
Qed.

(** X5. A time string without a colon has no minutes: its minute count is
    [NaN], [addMinutes] renders it as "NaN:NaN", and [isTableAvailable]
    reports every table available at it, whatever the bookings. *)
Theorem colonless_time_is_always_free (s : string) :
  colonless s = true ->
  timeToMinutes s = Js.NaN /\
  (forall k, addMinutes s k = "NaN:NaN") /\
  (forall z bks, isTableAvailable z s bks = true).
Proof.
  intros Hs. split; [now apply timeToMinutes_colonless|]. split.
  - intros k. unfold addMinutes, splitTime. rewrite (split_colonless s Hs).
    simpl. now destruct (Js.Number s).
  - intros z bks. apply isTableAvailable_true, Forall_forall. intros b _ _.
    unfold timesOverlap. now rewrite (timeToMinutes_colonless s Hs).
Qed.

Lemma colonless_time_is_always_free_witness :
  isTableAvailable 1 "1700"
    [{| tableId := 1; startTime := "17:00"; endTime := "18:30" |}] = true.
Proof.
  destruct (colonless_time_is_always_free "1700") as (_ & _ & H); [reflexivity|].
  apply H.
Defined.

Lemma hour12_range (h : Z) : 0 <= h < 24 -> 1 <= hour12 h <= 12.
Proof.
  intros Hh. unfold hour12.
  destruct (Z.eqb_spec h 0); [lia|]. destruct (Z.ltb_spec 12 h); lia.
Qed.

(** X6. [formatTimeForDisplay] writes a time of day on the 12-hour clock:
    the hour between 1 and 12 without padding, then the minutes after a
    colon unless they are zero (also without padding), then AM before noon
    and PM from noon on. *)
Theorem formatTimeForDisplay_12_hour (h m : Z) :
  0 <= h < 24 -> 0 <= m < 60 ->
  formatTimeForDisplay (renderTime (Js.Num h) (Js.Num m)) =
    (Js.String (Js.Num (hour12 h))
     ++ (if (m =? 0)%Z then "" else ":" ++ Js.String (Js.Num m))
     ++ (if (h <? 12)%Z then "AM" else "PM"))%string /\
  1 <= hour12 h <= 12.
Proof.
  intros Hh Hm. split; [|now apply hour12_range].
  unfold formatTimeForDisplay.
  destruct (renderTime_readsBack h m Hh Hm) as [-> _].
  cbn [Js.toNumber Js.ge Js.gt Js.strictEq Js.cmp Js.sub Js.lift2 Js.show].
  unfold hour12. rewrite Z.geb_leb, Z.gtb_ltb.
  destruct (Z.leb_spec 12 h), (Z.ltb_spec h 12); try lia;
    destruct (Z.ltb_spec 12 h), (Z.eqb_spec h 0); try lia;
    destruct (Z.eqb_spec m 0); reflexivity.
Qed.

Lemma formatTimeForDisplay_12_hour_witness :
  formatTimeForDisplay (renderTime (Js.Num 17) (Js.Num 5)) = "5:5PM".
Proof.
  destruct (formatTimeForDisplay_12_hour 17 5) as [E _]; [lia | lia |]. exact E.
Defined.

Lemma NoDup_dayLabels : NoDup dayLabels.
Proof. compute_done. Qed.

(** X7. The display label identifies the time of day: two times with the
    same label are the same. *)
Theorem formatTimeForDisplay_injective (h m h' m' : Z) :
  0 <= h < 24 -> 0 <= m < 60 -> 0 <= h' < 24 -> 0 <= m' < 60 ->
  formatTimeForDisplay (renderTime (Js.Num h) (Js.Num m)) =
  formatTimeForDisplay (renderTime (Js.Num h') (Js.Num m')) ->
  h = h' /\ m = m'.
Proof.
  intros Hh Hm Hh' Hm' E.
  rewrite !renderTime_ofMinutes in E by lia.
  assert (L : forall n, 0 <= n < 1440 ->
            dayLabels !! Z.to_nat n = Some (formatTimeForDisplay (ofMinutes n))).
  { intros n Hn. unfold dayLabels. rewrite list_lookup_fmap, lookup_seqZ_lt by lia.
    simpl. do 3 f_equal. lia. }
  pose proof (NoDup_lookup _ _ _ _ NoDup_dayLabels
                (L (h * 60 + m) ltac:(lia)) (eq_trans (L (h' * 60 + m') ltac:(lia)) (f_equal Some (eq_sym E)))).
  lia.
Qed.

Lemma formatTimeForDisplay_injective_witness : 17 = 17 /\ 30 = 30.
Proof.
  apply (formatTimeForDisplay_injective 17 30 17 30); try lia. reflexivity.
Defined.

(** ** Further properties of the availability oracle *)

Lemma isTableAvailable_cons (z : Z) (t : string) (b : BookingSlot) (bks : list BookingSlot) :
  isTableAvailable z t (b :: bks) =
  negb ((tableId b =? z) &&
        timesOverlap t (addMinutes t 90) (startTime b) (endTime b))
  && isTableAvailable z t bks.
Proof. unfold isTableAvailable. simpl. apply negb_orb. Qed.

(** X8. A table is available under two lists of bookings together exactly
    when it is available under each of them; so adding bookings never makes
    a table available. *)
Theorem isTableAvailable_app (z : Z) (t : string) (bks1 bks2 : list BookingSlot) :
  isTableAvailable z t (bks1 ++ bks2) =
    isTableAvailable z t bks1 && isTableAvailable z t bks2 /\
  (isTableAvailable z t bks1 = false -> isTableAvailable z t (bks1 ++ bks2) = false) /\
  (isTableAvailable z t bks2 = false -> isTableAvailable z t (bks1 ++ bks2) = false).
Proof.
  assert (E : isTableAvailable z t (bks1 ++ bks2) =
              isTableAvailable z t bks1 && isTableAvailable z t bks2).
  { induction bks1 as [|b bks1 IH]; [reflexivity|].
    cbn [app]. rewrite !isTableAvailable_cons, IH. apply andb_assoc. }
  split; [exact E|]. rewrite E. split; intros ->; [reflexivity|apply andb_false_r].
Qed.

Lemma isTableAvailable_app_witness :
  isTableAvailable 1 "17:00"
    ([{| tableId := 1; startTime := "17:30"; endTime := "19:00" |}]
     ++ [{| tableId := 1; startTime := "20:00"; endTime := "21:30" |}]) = false.
Proof.
  destruct (isTableAvailable_app 1 "17:00"
              [{| tableId := 1; startTime := "17:30"; endTime := "19:00" |}]
              [{| tableId := 1; startTime := "20:00"; endTime := "21:30" |}])
    as (_ & H & _).
  apply H. reflexivity.
Defined.

(** X9. Only the bookings of the table itself count, and their order does
    not: the verdict is the same on the bookings that reference the table,
    and on any rearrangement of the list. *)
Theorem isTableAvailable_own_bookings (z : Z) (t : string) (bks bks' : list BookingSlot) :
  isTableAvailable z t bks = isTableAvailable z t (bookingsOf z bks) /\
  (bks ≡ₚ bks' -> isTableAvailable z t bks = isTableAvailable z t bks').
Proof.
  split.
  - induction bks as [|b bks IH]; [reflexivity|].
    unfold bookingsOf in *. rewrite filter_cons.
    destruct (decide (tableId b = z)) as [Eb|Nb].
    + now rewrite !isTableAvailable_cons, IH.
    + rewrite isTableAvailable_cons, IH.
      apply Z.eqb_neq in Nb. now rewrite Nb.
  - induction 1 as [|b l l' _ IH|b b' l|l l' l'' _ IH1 _ IH2].
    + reflexivity.
    + now rewrite !isTableAvailable_cons, IH.
    + rewrite !isTableAvailable_cons, !andb_assoc. f_equal. apply andb_comm.
    + congruence.
Qed.

Lemma isTableAvailable_own_bookings_witness :
  isTableAvailable 1 "17:00"
    [{| tableId := 2; startTime := "17:00"; endTime := "18:30" |};
     {| tableId := 1; startTime := "20:00"; endTime := "21:30" |}] =
  isTableAvailable 1 "17:00"
    [{| tableId := 1; startTime := "20:00"; endTime := "21:30" |};
     {| tableId := 2; startTime := "17:00"; endTime := "18:30" |}].
Proof.
  apply (isTableAvailable_own_bookings 1 "17:00"
           [{| tableId := 2; startTime := "17:00"; endTime := "18:30" |};
            {| tableId := 1; startTime := "20:00"; endTime := "21:30" |}]).
  apply perm_swap.
Defined.

(** X10. A 90-minute booking that starts at minute [S] of the day makes its
    table unavailable at minute [T] exactly when both start before 22:30 and
    are less than 90 minutes apart.  From 22:30 on the end time wraps past
    midnight, and then a booking blocks no time and a requested time is
    blocked by no booking. *)
Theorem booking_blocks_window (z hs ms ht mt : Z) :
  0 <= hs < 24 -> 0 <= ms < 60 -> 0 <= ht < 24 -> 0 <= mt < 60 ->
  let S := hs * 60 + ms in
  let T := ht * 60 + mt in
  isTableAvailable z (renderTime (Js.Num ht) (Js.Num mt))
    [{| tableId := z;
        startTime := renderTime (Js.Num hs) (Js.Num ms);
        endTime := addMinutes (renderTime (Js.Num hs) (Js.Num ms)) 90 |}] = false
  <-> S < 1350 /\ T < 1350 /\ S - 90 < T < S + 90.
Proof.
  intros Hhs Hms Hht Hmt S T.
  rewrite isTableAvailable_cons. cbn [tableId startTime endTime].
  rewrite Z.eqb_refl, andb_true_l. unfold isTableAvailable at 1. cbn [existsb negb].
  rewrite andb_true_r, negb_false_iff.
  unfold timesOverlap.
  rewrite !minutes_addMinutes, !minutes_renderTime by lia.
  fold S T. cbn [Js.lt Js.cmp]. rewrite andb_true_iff, !Z.ltb_lt.
  subst S T. Z.div_mod_to_equations. lia.
Qed.

Lemma booking_blocks_window_witness :
  isTableAvailable 3 (renderTime (Js.Num 16) (Js.Num 0))
    [{| tableId := 3;
        startTime := renderTime (Js.Num 17) (Js.Num 0);
        endTime := addMinutes (renderTime (Js.Num 17) (Js.Num 0)) 90 |}] = false.
Proof.
  apply (booking_blocks_window 3 17 0 16 0); lia.
Defined.

(** ** Further properties of the layout and the grid *)

Lemma filled_ids (pre : list Table) :
  filled pre ->
  exists k, 4 <= k <= 8 /\
    Forall (fun t => if id t <=? k then capacity t = 4 else capacity t = 6) pre.
Proof.
  intros (k & l4 & l6 & Hk & -> & H4 & H6 & Hc4 & Hc6 & Hids).
  exists k. split; [assumption|].
  replace 12 with (k + (12 - k)) in Hids by lia.
  rewrite fmap_app, seqZ_app in Hids by lia.
  apply app_inj_1 in Hids as [Hid4 Hid6];
    [|rewrite length_fmap, length_seqZ; lia].
  apply Forall_app. split.
  - apply Forall_forall. intros t Ht.
    assert (Hin : id t ∈ seqZ 1 k) by (rewrite <- Hid4; now apply list_elem_of_fmap_2).
    apply elem_of_seqZ in Hin. rewrite Forall_forall in Hc4.
    destruct (Z.leb_spec (id t) k); [auto | lia].
  - apply Forall_forall. intros t Ht.
    assert (Hin : id t ∈ seqZ (1 + k) (12 - k))
      by (rewrite <- Hid6; now apply list_elem_of_fmap_2).
    apply elem_of_seqZ in Hin. rewrite Forall_forall in Hc6.
    destruct (Z.leb_spec (id t) k); [lia | auto].
Qed.

(** X11. In every layout the capacity follows the id: for the number [k] of
    4-person tables (between 4 and 8), the tables with ids up to [k] seat 4
    and the others seat 6.  So tables 1 to 4 always seat 4 and tables 9 to
    12 always seat 6, also after the shuffle. *)
Theorem capacity_follows_id (s : Rng) :
  valid s ->
  exists ts k, run generateTables s = Some ts /\ 4 <= k <= 8 /\
    k = Z.of_nat (countCapacity 4 ts) /\
    forall t, t ∈ ts ->
      (id t <= k -> capacity t = 4) /\ (k < id t -> capacity t = 6) /\
      (id t <= 4 -> capacity t = 4) /\ (9 <= id t -> capacity t = 6).
Proof.
  intros Hs.
  destruct (returns_run _ _ s returns_generateTables Hs) as (ts & Hrun & pre & Hpre & Hp).
  destruct (filled_ids pre Hpre) as (k & Hk & Hall).
  exists ts, k. split; [assumption|]. split; [assumption|]. split.
  - unfold countCapacity. rewrite Hp.
    destruct Hpre as (k' & l4 & l6 & Hk' & -> & H4 & H6 & Hc4 & Hc6 & Hids).
    rewrite fmap_app in Hids. rewrite Forall_app in Hall. destruct Hall as [Ha4 Ha6].
    rewrite filter_app, (filter_all _ l4 Hc4), (filter_none _ l6), app_nil_r.
    2:{ eapply Forall_impl; [exact Hc6|]. intros t ->. discriminate. }
    rewrite H4.
    assert (Hlen : length (id <$> l4) = length l4) by apply length_fmap.
    destruct (Z.lt_trichotomy k k') as [Hlt | [-> | Hgt]]; [exfalso | reflexivity | exfalso].
    + assert (Hin : (k + 1) ∈ id <$> l4).
      { assert (Hx : (k + 1) ∈ seqZ 1 12) by (apply elem_of_seqZ; lia).
        rewrite <- Hids in Hx. apply elem_of_app in Hx as [Hx | Hx]; [assumption|].
        exfalso. replace 12 with (k' + (12 - k')) in Hids by lia.
        rewrite seqZ_app in Hids by lia.
        apply app_inj_1 in Hids as [_ Hid6];
          [|rewrite length_fmap, length_seqZ; lia].
        rewrite Hid6 in Hx. apply elem_of_seqZ in Hx. lia. }
      apply list_elem_of_fmap in Hin as (t & Et & Ht).
      rewrite Forall_forall in Ha4, Hc4. specialize (Ha4 t Ht).
      destruct (Z.leb_spec (id t) k); [lia|]. rewrite (Hc4 t Ht) in Ha4. discriminate.
    + assert (Hin : k ∈ id <$> l6).
      { replace 12 with (k' + (12 - k')) in Hids by lia.
        rewrite seqZ_app in Hids by lia.
        apply app_inj_1 in Hids as [_ Hid6];
          [|rewrite length_fmap, length_seqZ; lia].
        rewrite Hid6. apply elem_of_seqZ. lia. }
      apply list_elem_of_fmap in Hin as (t & Et & Ht).
      rewrite Forall_forall in Ha6, Hc6. specialize (Ha6 t Ht).
      destruct (Z.leb_spec (id t) k); [|lia]. rewrite (Hc6 t Ht) in Ha6. discriminate.
  - intros t Ht. rewrite Hp in Ht. rewrite Forall_forall in Hall.
    specialize (Hall t Ht). destruct (Z.leb_spec (id t) k); repeat split; intros; lia || auto.
Qed.

Lemma capacity_follows_id_witness :
  valid (sampleRng 6) /\
  exists ts k, run generateTables (sampleRng 6) = Some ts /\ 4 <= k <= 8 /\
    k = Z.of_nat (countCapacity 4 ts) /\
    forall t, t ∈ ts ->
      (id t <= k -> capacity t = 4) /\ (k < id t -> capacity t = 6) /\
      (id t <= 4 -> capacity t = 4) /\ (9 <= id t -> capacity t = 6).
Proof.
  split; [apply sampleRng_valid|].
  apply (capacity_follows_id (sampleRng 6)), sampleRng_valid.
Defined.

Lemma same_id_same_table (ts : list Table) (t t' : Table) :
  NoDup (id <$> ts) -> t ∈ ts -> t' ∈ ts -> id t = id t' -> t = t'.
Proof.
  intros Hnd [i Hi]%list_elem_of_lookup [j Hj]%list_elem_of_lookup E.
  assert (Hi' : (id <$> ts) !! i = Some (id t)) by now rewrite list_lookup_fmap, Hi.
  assert (Hj' : (id <$> ts) !! j = Some (id t)) by now rewrite list_lookup_fmap, Hj, E.
  pose proof (NoDup_lookup _ _ _ _ Hnd Hi' Hj') as ->. congruence.
Qed.

Lemma findTable_Some (ts : list Table) (z : Z) (t : Table) :
  findTable ts z = Some t -> t ∈ ts /\ id t = z.
Proof.
  intros H. apply find_some in H as [Hin E].
  split; [now apply list_elem_of_In | now apply Z.eqb_eq].
Qed.

Lemma findTable_elem (ts : list Table) (t : Table) :
  NoDup (id <$> ts) -> t ∈ ts -> findTable ts (id t) = Some t.
Proof.
  intros Hnd Ht. destruct (findTable ts (id t)) as [t'|] eqn:E.
  - apply findTable_Some in E as [Ht' E]. f_equal.
    now apply (same_id_same_table ts).
  - unfold findTable in E. apply list_elem_of_In in Ht.
    pose proof (find_none _ _ E t Ht) as H. cbv beta in H.
    rewrite Z.eqb_refl in H. discriminate.
Qed.

Lemma findTable_None (ts : list Table) (z : Z) :
  findTable ts z = None <-> z ∉ id <$> ts.
Proof.
  split.
  - intros E (t & -> & Ht)%list_elem_of_fmap. apply list_elem_of_In in Ht.
    pose proof (find_none _ _ E t Ht) as H. cbv beta in H.
    rewrite Z.eqb_refl in H. discriminate.
  - intros Hz. destruct (findTable ts z) as [t|] eqn:E; [|reflexivity].
    apply findTable_Some in E as [Ht <-]. exfalso. apply Hz.
    now apply list_elem_of_fmap_2.
Qed.

(** The table found for an id does not depend on the order of the list,
    when ids are distinct. *)
Lemma findTable_Permutation (ts ts' : list Table) (z : Z) :
  NoDup (id <$> ts) -> ts ≡ₚ ts' -> findTable ts z = findTable ts' z.
Proof.
  intros Hnd Hp. destruct (findTable ts z) as [t|] eqn:E.
  - apply findTable_Some in E as [Ht <-]. symmetry. apply findTable_elem.
    + now rewrite <- Hp.
    + now rewrite <- Hp.
  - symmetry. apply findTable_None. apply findTable_None in E. now rewrite <- Hp.
Qed.

Lemma gridRows_layout (ts : list Table) :
  layout ts ->
  map (map id) (gridRows ts) = gridLayout /\ concat (gridRows ts) ≡ₚ ts.
Proof.
  intros Hl.
  pose proof (layout_ids_distinct ts Hl) as Hnd.
  assert (Hfind : forall z, 1 <= z <= 12 ->
            exists t, findTable ts z = Some t /\ id t = z /\ t ∈ ts).
  { intros z Hz.
    assert (Hin : z ∈ id <$> ts) by (rewrite (layout_ids ts Hl); apply elem_of_seqZ; lia).
    apply list_elem_of_fmap in Hin as (t & -> & Ht).
    exists t. split; [now apply findTable_elem | auto]. }
  unfold gridRows, gridLayout. cbn [map omap list_omap].
  destruct (Hfind 1 ltac:(lia)) as (t1 & -> & E1 & H1).
  destruct (Hfind 2 ltac:(lia)) as (t2 & -> & E2 & H2).
  destruct (Hfind 3 ltac:(lia)) as (t3 & -> & E3 & H3).
  destruct (Hfind 4 ltac:(lia)) as (t4 & -> & E4 & H4).
  destruct (Hfind 5 ltac:(lia)) as (t5 & -> & E5 & H5).
  destruct (Hfind 6 ltac:(lia)) as (t6 & -> & E6 & H6).
  destruct (Hfind 7 ltac:(lia)) as (t7 & -> & E7 & H7).
  destruct (Hfind 8 ltac:(lia)) as (t8 & -> & E8 & H8).
  destruct (Hfind 9 ltac:(lia)) as (t9 & -> & E9 & H9).
  destruct (Hfind 10 ltac:(lia)) as (t10 & -> & E10 & H10).
  destruct (Hfind 11 ltac:(lia)) as (t11 & -> & E11 & H11).
  destruct (Hfind 12 ltac:(lia)) as (t12 & -> & E12 & H12).
  cbn [map concat app]. split; [congruence|].
  apply submseteq_length_Permutation.
  - apply NoDup_submseteq.
    + apply (NoDup_fmap_1 id). cbn [fmap list_fmap].
      rewrite E1, E2, E3, E4, E5, E6, E7, E8, E9, E10, E11, E12. compute_done.
    + intros x Hx. repeat (apply elem_of_cons in Hx as [-> | Hx]; [assumption|]).
      now apply elem_of_nil in Hx.
  - rewrite (layout_length ts Hl). simpl. lia.
Qed.

(** X12. The grid shows every table of a generated layout exactly once, each
    in the cell of its id; what it shows does not depend on the order of
    the table list, so it is the same before and after the shuffle. *)
Theorem grid_shows_each_table_once (s : Rng) :
  valid s ->
  exists pre ts,
    run fillTables s = Some pre /\ run generateTables s = Some ts /\
    map (map id) (gridRows ts) = gridLayout /\
    concat (gridRows ts) ≡ₚ ts /\
    gridRows ts = gridRows pre.
Proof.
  intros Hs.
  destruct (returns_fillTables s Hs) as (pre & s1 & E1 & Hs1 & Hpre).
  destruct (returns_shuffle pre s1 Hs1) as (ts & s2 & E2 & _ & Hp).
  assert (Hl : layout ts) by (exists pre; auto).
  exists pre, ts. unfold run, generateTables, bind. rewrite E1, E2.
  split; [reflexivity|]. split; [reflexivity|].
  destruct (gridRows_layout ts Hl) as [Hids Hperm].
  split; [assumption|]. split; [assumption|].
  unfold gridRows. apply map_ext. intros row.
  induction row as [|z row IH]; [reflexivity|].
  cbn [omap list_omap].
  now rewrite (findTable_Permutation ts pre z (layout_ids_distinct ts Hl) Hp), IH.
Qed.

Lemma grid_shows_each_table_once_witness :
  valid (sampleRng 9) /\
  exists pre ts,
    run fillTables (sampleRng 9) = Some pre /\
    run generateTables (sampleRng 9) = Some ts /\
    map (map id) (gridRows ts) = gridLayout /\
    concat (gridRows ts) ≡ₚ ts /\
    gridRows ts = gridRows pre.
Proof.
  split; [apply sampleRng_valid|].
  apply (grid_shows_each_table_once (sampleRng 9)), sampleRng_valid.
Defined.

(** X13. Every table of a generated layout is drawn with as many chairs as
    it seats. *)
Theorem chairs_match_capacity (s : Rng) :
  valid s ->
  exists ts, run generateTables s = Some ts /\
    Forall (fun t => Z.of_nat (length (chairs t)) = capacity t) ts.
Proof.
  intros Hs.
  destruct (returns_run _ _ s returns_generateTables Hs) as (ts & Hrun & Hl).
  exists ts. split; [assumption|].
  eapply Forall_impl; [apply (layout_capacities ts Hl)|].
  intros t [E | E]; unfold chairs; rewrite E; reflexivity.
Qed.

Lemma chairs_match_capacity_witness :
  valid (sampleRng 4) /\
  exists ts, run generateTables (sampleRng 4) = Some ts /\
    Forall (fun t => Z.of_nat (length (chairs t)) = capacity t) ts.
Proof.
  split; [apply sampleRng_valid|].
  apply (chairs_match_capacity (sampleRng 4)), sampleRng_valid.
Defined.

(** ** Further properties of the scenario generator *)

Lemma ensures_ret {A} (a : A) (P : A -> Prop) : P a -> ensures (ret a) P.
Proof. intros HP s a' s' [= <- _]. exact HP. Qed.

Lemma ensures_bind {A B} (m : M A) (f : A -> M B) (P : A -> Prop) (Q : B -> Prop) :
  ensures m P -> (forall a, P a -> ensures (f a) Q) -> ensures (bind m f) Q.
Proof.
  intros Hm Hf s b s' E. unfold bind in E.
  destruct (m s) as [[a s1]|] eqn:E1; [|discriminate].
  exact (Hf a (Hm s a s1 E1) s1 b s' E).
Qed.

Lemma ensures_any {A} (m : M A) : ensures m (fun _ => True).
Proof. now intros s a s' _. Qed.

Lemma returns_ensures {A} (m : M A) (P Q : A -> Prop) :
  returns m P -> ensures m Q -> returns m (fun a => P a /\ Q a).
Proof.
  intros Hm Hq s Hs. destruct (Hm s Hs) as (a & s1 & E & Hs1 & Ha).
  exists a, s1. split; [assumption|]. split; [assumption|].
  split; [assumption | exact (Hq s a s1 E)].
Qed.

Lemma ensures_prompt_label :
  ensures generateRandomPrompt
    (fun p => displayTime p = formatTimeForDisplay (time p)).
Proof.
  unfold generateRandomPrompt.
  eapply ensures_bind; [apply ensures_any|]. intros i _.
  eapply ensures_bind; [apply ensures_any|]. intros n _.
  eapply ensures_bind; [apply ensures_any|]. intros j _.
  eapply ensures_bind; [apply ensures_any|]. intros t _.
  now apply ensures_ret.
Qed.

Lemma ensures_scenario_label (systemType0 : SystemType) :
  ensures (generateExperimentData systemType0)
    (fun d => displayTime (prompt d) = formatTimeForDisplay (time (prompt d))).
Proof.
  unfold generateExperimentData, chooseGuaranteedTable.
  eapply ensures_bind.
  - eapply ensures_bind; [apply ensures_any|]. intros ts _.
    eapply ensures_bind; [apply ensures_prompt_label|]. intros p Hp.
    eapply ensures_bind; [apply ensures_any|]. intros k _.
    apply (ensures_ret _ (fun chosen => displayTime (snd (fst chosen)) =
                            formatTimeForDisplay (time (snd (fst chosen))))).
    exact Hp.
  - intros [[ts p] g] Hp. cbn [fst snd] in Hp.
    eapply ensures_bind; [apply ensures_any|]. intros bks _.
    now apply ensures_ret.
Qed.

(** X14. The prompt of every generated scenario asks for 4 or 6 people at
    one of the nine slots, and its display time is the 12-hour label of
    that slot, one of 5PM, 5:30PM, ..., 9PM; the scenario carries the
    display mode it was asked for. *)
Theorem prompt_of_scenario (systemType0 : SystemType) (s : Rng) :
  valid s ->
  exists d, run (generateExperimentData systemType0) s = Some d /\
    systemType d = systemType0 /\
    (partySize (prompt d) = 4 \/ partySize (prompt d) = 6) /\
    time (prompt d) ∈ AVAILABLE_TIMES /\
    displayTime (prompt d) = formatTimeForDisplay (time (prompt d)) /\
    displayTime (prompt d) ∈
      ["5PM"; "5:30PM"; "6PM"; "6:30PM"; "7PM"; "7:30PM"; "8PM"; "8:30PM"; "9PM"].
Proof.
  intros Hs.
  destruct (returns_run _ _ s
              (returns_ensures _ _ _ (returns_generateExperimentData systemType0)
                 (ensures_scenario_label systemType0)) Hs)
    as (d & Hrun & (Hsys & _ & (Hsize & Htime) & _) & Hlabel).
  exists d. repeat split; auto.
  rewrite Hlabel.
  change (formatTimeForDisplay (time (prompt d)) ∈ formatTimeForDisplay <$> AVAILABLE_TIMES).
  now apply list_elem_of_fmap_2.
Qed.

Lemma prompt_of_scenario_witness :
  valid (sampleRng 3) /\
  exists d, run (generateExperimentData text) (sampleRng 3) = Some d /\
    systemType d = text /\
    (partySize (prompt d) = 4 \/ partySize (prompt d) = 6) /\
    time (prompt d) ∈ AVAILABLE_TIMES /\
    displayTime (prompt d) = formatTimeForDisplay (time (prompt d)) /\
    displayTime (prompt d) ∈
      ["5PM"; "5:30PM"; "6PM"; "6:30PM"; "7PM"; "7:30PM"; "8PM"; "8:30PM"; "9PM"].
Proof.
  split; [apply sampleRng_valid|].
  apply (prompt_of_scenario text (sampleRng 3)), sampleRng_valid.
Defined.

Lemma returns_bookings_length (g : Table) (prompt0 : Prompt) (ts : list Table) :
  returns (forEach (bookTable (Some g) prompt0) ts [])
    (fun bks => (length bks <= 3 * length ts)%nat).
Proof.
  apply (returns_forEach _ (fun seen bks => (length bks <= 3 * length seen)%nat));
    [|simpl; lia].
  intros seen a rest acc _ Hacc.
  eapply returns_mono; [apply returns_bookTable|].
  intros bks' (new & -> & _ & _ & Hlen). cbv beta in *.
  rewrite !length_app. cbn [length]. lia.
Qed.

(** X15. A generated scenario has at most 36 bookings, 3 for each of its 12
    tables. *)
Theorem bookings_at_most_36 (systemType0 : SystemType) (s : Rng) :
  valid s ->
  exists d, run (generateExperimentData systemType0) s = Some d /\
    length (tables d) = 12%nat /\ (length (bookings d) <= 36)%nat.
Proof.
  intros Hs.
  assert (H : returns (generateExperimentData systemType0)
                (fun d => length (tables d) = 12%nat /\ (length (bookings d) <= 36)%nat)).
  { unfold generateExperimentData.
    eapply returns_bind; [apply returns_chooseGuaranteedTable|].
    intros chosen (ts & p & g & -> & Hts & _ & _).
    eapply returns_bind; [apply (returns_bookings_length g p ts)|].
    intros bks Hlen. apply returns_ret. cbn [tables bookings].
    pose proof (layout_length ts Hts) as H12. cbv beta in Hlen.
    rewrite H12 in Hlen. split; [assumption | lia]. }
  destruct (returns_run _ _ s H Hs) as (d & Hrun & Hd). eauto.
Qed.

Lemma bookings_at_most_36_witness :
  valid (sampleRng 12) /\
  exists d, run (generateExperimentData coloured) (sampleRng 12) = Some d /\
    length (tables d) = 12%nat /\ (length (bookings d) <= 36)%nat.
Proof.
  split; [apply sampleRng_valid|].
  apply (bookings_at_most_36 coloured (sampleRng 12)), sampleRng_valid.
Defined.

(** ** Properties of the experiment page *)

(** X16. A click completes a trial only for a correct booking: when
    [handleTableSelect] shows the button to continue or posts the result,
    the table is one of the scenario, it seats the party of the prompt, the
    selected time is the time of the prompt, the table is available then,
    the error message is cleared and the duration of the running trial is
    the time since it started. *)
Theorem trial_completes_only_on_correct_booking
    (z now : Z) (iso : string) (st st' : Page.State)
    (req : option Result.ExperimentResult) :
  Page.handleTableSelect z now iso st = (st', req) ->
  (Page.showNextButton st = false /\ Page.showNextButton st' = true) \/ req <> None ->
  exists d t,
    Page.currentData st = Some d /\ t ∈ tables d /\ id t = z /\
    capacity t = partySize (prompt d) /\
    Page.selectedTime st = Some (time (prompt d)) /\
    isTableAvailable z (time (prompt d)) (bookings d) = true /\
    Page.errorMessage st' = None /\
    ((Page.experimentPhase st = Page.Trial1 /\
      Page.trial1Duration st' = now - Page.startTime st) \/
     (Page.experimentPhase st = Page.Trial2 /\
      Page.trial2Duration st' = now - Page.startTime st)).
Proof.
  unfold Page.handleTableSelect. intros E Hdone.
  destruct (Page.currentData st) as [d|] eqn:Ed;
    [|injection E as <- <-; destruct Hdone as [[H1 H2]|H]; congruence].
  destruct (Page.selectedTime st) as [t0|] eqn:Et;
    [|injection E as <- <-; destruct Hdone as [[H1 H2]|H]; congruence].
  destruct (negb (truthy (Some t0)));
    [injection E as <- <-; destruct Hdone as [[H1 H2]|H]; congruence|].
  destruct (findTable (tables d) z) as [t|] eqn:Ef;
    [|injection E as <- <-; destruct Hdone as [[H1 H2]|H]; congruence].
  apply findTable_Some in Ef as [Hin Hid].
  destruct (isTableAvailable z t0 (bookings d)) eqn:Hav; cbn [negb] in E;
    [|injection E as <- <-; destruct Hdone as [[H1 H2]|H]; simpl in *; congruence].
  destruct (Z.eqb_spec (capacity t) (partySize (prompt d))) as [Hcap|]; cbn [negb] in E;
    [|injection E as <- <-; destruct Hdone as [[H1 H2]|H]; simpl in *; congruence].
  destruct (String.eqb_spec t0 (time (prompt d))) as [->|]; cbn [negb] in E;
    [|injection E as <- <-; destruct Hdone as [[H1 H2]|H]; simpl in *; congruence].
  exists d, t. repeat (split; [assumption || reflexivity|]).
  destruct (Page.experimentPhase st) eqn:Eph.
  - injection E as <- <-. destruct Hdone as [[H1 H2]|H]; simpl in *; congruence.
  - injection E as <- <-. simpl. auto.
  - unfold Page.saveResults in E. cbn [Page.trial1Data Page.trial2Data Page.firstSystem] in E.
    destruct (Page.trial1Data st), (Page.trial2Data st), (Page.firstSystem st);
      injection E as <- <-; simpl; auto.
  - injection E as <- <-. destruct Hdone as [[H1 H2]|H]; simpl in *; congruence.
Qed.

Lemma trial_completes_only_on_correct_booking_witness :
  exists d t,
    Page.currentData sampleState = Some d /\ t ∈ tables d /\ id t = 1 /\
    capacity t = partySize (prompt d) /\
    Page.selectedTime sampleState = Some (time (prompt d)) /\
    isTableAvailable 1 (time (prompt d)) (bookings d) = true /\
    Page.errorMessage (fst (Page.handleTableSelect 1 4500 "t" sampleState)) = None /\
    ((Page.experimentPhase sampleState = Page.Trial1 /\
      Page.trial1Duration (fst (Page.handleTableSelect 1 4500 "t" sampleState)) =
        4500 - Page.startTime sampleState) \/
     (Page.experimentPhase sampleState = Page.Trial2 /\
      Page.trial2Duration (fst (Page.handleTableSelect 1 4500 "t" sampleState)) =
        4500 - Page.startTime sampleState)).
Proof.
  apply (trial_completes_only_on_correct_booking 1 4500 "t" sampleState
           (fst (Page.handleTableSelect 1 4500 "t" sampleState))
           (snd (Page.handleTableSelect 1 4500 "t" sampleState))).
  - now destruct (Page.handleTableSelect 1 4500 "t" sampleState).
  - left. split; reflexivity.
Defined.

Lemma slot_truthy (t : string) : t ∈ AVAILABLE_TIMES -> truthy (Some t) = true.
Proof.
  intros Ht. unfold AVAILABLE_TIMES in Ht.
  repeat (apply elem_of_cons in Ht as [-> | Ht]; [reflexivity|]).
  now apply elem_of_nil in Ht.
Qed.

(** In a scenario some table shown on the grid is a correct booking. *)
Lemma scenario_solvable (d : ExperimentData) :
  scenario d ->
  exists g, g ∈ concat (gridRows (tables d)) /\
    findTable (tables d) (id g) = Some g /\
    capacity g = partySize (prompt d) /\
    isTableAvailable (id g) (time (prompt d)) (bookings d) = true /\
    truthy (Some (time (prompt d))) = true.
Proof.
  intros (Hl & (_ & Htime) & g & Hg & Hall & _).
  apply list_elem_of_filter in Hg as [Hcap Hin].
  exists g. split; [|split; [|split; [|split]]].
  - destruct (gridRows_layout _ Hl) as [_ Hp]. now rewrite Hp.
  - apply findTable_elem; [now apply layout_ids_distinct | assumption].
  - assumption.
  - apply isTableAvailable_true. eapply Forall_impl; [exact Hall|].
    intros b (t & _ & Eb & _ & _ & Hclear) Ebg.
    rewrite timesOverlap_sym. apply Hclear. congruence.
  - now apply slot_truthy.
Qed.

(** What an accepted click does. *)
Lemma clickTable_correct (g : Table) (now : Z) (iso : string) (st : Page.State)
    (d : ExperimentData) :
  Page.currentData st = Some d ->
  Page.selectedTime st = Some (time (prompt d)) ->
  truthy (Some (time (prompt d))) = true ->
  findTable (tables d) (id g) = Some g ->
  capacity g = partySize (prompt d) ->
  isTableAvailable (id g) (time (prompt d)) (bookings d) = true ->
  Page.clickTable g now iso st =
  match Page.experimentPhase st with
  | Page.Trial1 =>
      ({| Page.experimentPhase := Page.experimentPhase st;
          Page.firstSystem := Page.firstSystem st;
          Page.trial1Data := Page.trial1Data st; Page.trial2Data := Page.trial2Data st;
          Page.currentData := Page.currentData st;
          Page.startTime := Page.startTime st;
          Page.trial1Duration := now - Page.startTime st;
          Page.trial2Duration := Page.trial2Duration st;
          Page.selectedTime := Page.selectedTime st; Page.showNextButton := true;
          Page.submitting := Page.submitting st; Page.errorMessage := None |}, None)
  | Page.Trial2 =>
      Page.saveResults iso
        {| Page.experimentPhase := Page.experimentPhase st;
           Page.firstSystem := Page.firstSystem st;
           Page.trial1Data := Page.trial1Data st; Page.trial2Data := Page.trial2Data st;
           Page.currentData := Page.currentData st;
           Page.startTime := Page.startTime st;
           Page.trial1Duration := Page.trial1Duration st;
           Page.trial2Duration := now - Page.startTime st;
           Page.selectedTime := Page.selectedTime st;
           Page.showNextButton := Page.showNextButton st;
           Page.submitting := Page.submitting st; Page.errorMessage := None |}
  | _ => (Page.setErrorMessage None st, None)
  end.
Proof.
  intros Ed Et Htr Ef Hcap Hav.
  unfold Page.clickTable, handleClick, cellAvailable, Page.handleTableSelect.
  rewrite Ed, Et, Htr, Hav. cbn [andb negb]. rewrite Ef, Hav, Hcap.
  rewrite Z.eqb_refl, String.eqb_refl. reflexivity.
Qed.

Lemma returns_startExperiment (now : Z) (st : Page.State) :
  returns (Page.startExperiment now st)
    (fun st1 => exists d,
       scenario d /\
       displayTime (prompt d) = formatTimeForDisplay (time (prompt d)) /\
       Page.firstSystem st1 = Some (systemType d) /\
       Page.trial1Data st1 = Some d /\ Page.currentData st1 = Some d /\
       Page.trial2Data st1 = Page.trial2Data st /\
       Page.experimentPhase st1 = Page.Trial1 /\ Page.startTime st1 = now /\
       Page.selectedTime st1 = None /\ Page.showNextButton st1 = false).
Proof.
  unfold Page.startExperiment.
  eapply returns_bind; [apply returns_random|]. intros r _.
  eapply returns_bind.
  { apply returns_ensures;
      [apply returns_generateExperimentData | apply ensures_scenario_label]. }
  intros d ((Hsys & Hd) & Hlabel). apply returns_ret. exists d.
  cbn. rewrite Hsys. split; [exact Hd|]. repeat split; auto.
Qed.

Lemma returns_startTrial2 (now : Z) (st : Page.State) :
  returns (Page.startTrial2 now st)
    (fun st1 => exists d,
       scenario d /\
       displayTime (prompt d) = formatTimeForDisplay (time (prompt d)) /\
       systemType d = match Page.firstSystem st with
                      | Some coloured => text
                      | _ => coloured
                      end /\
       Page.firstSystem st1 = Page.firstSystem st /\
       Page.trial1Data st1 = Page.trial1Data st /\
       Page.trial1Duration st1 = Page.trial1Duration st /\
       Page.trial2Data st1 = Some d /\ Page.currentData st1 = Some d /\
       Page.experimentPhase st1 = Page.Trial2 /\ Page.startTime st1 = now /\
       Page.selectedTime st1 = None /\ Page.showNextButton st1 = false /\
       Page.errorMessage st1 = None).
Proof.
  unfold Page.startTrial2.
  eapply returns_bind.
  { apply returns_ensures;
      [apply returns_generateExperimentData | apply ensures_scenario_label]. }
  intros d ((Hsys & Hd) & Hlabel). apply returns_ret. exists d.
  cbn. split; [exact Hd|]. repeat split; auto.
Qed.

(** X17. The first trial can always be completed: after [startExperiment],
    on any draws, the grid shows a table such that selecting the time of
    the prompt and clicking that table shows the button to continue, with
    no error message, and records the time since the start. *)
Theorem trial1_can_be_completed (now0 now : Z) (iso : string) (st0 : Page.State)
    (s : Rng) :
  valid s ->
  exists st1 d t,
    run (Page.startExperiment now0 st0) s = Some st1 /\
    Page.experimentPhase st1 = Page.Trial1 /\
    Page.currentData st1 = Some d /\
    t ∈ concat (gridRows (tables d)) /\
    let st2 := fst (Page.clickTable t now iso
                      (Page.handleTimeSelect (time (prompt d)) st1)) in
    Page.showNextButton st2 = true /\
    Page.errorMessage st2 = None /\
    Page.trial1Duration st2 = now - now0.
Proof.
  intros Hs.
  destruct (returns_run _ _ s (returns_startExperiment now0 st0) Hs)
    as (st1 & Hrun & d & Hd & _ & _ & _ & Ecur & _ & Eph & Estart & _ & _).
  destruct (scenario_solvable d Hd) as (g & Hgrid & Hfind & Hcap & Hav & Htr).
  exists st1, d, g. repeat (split; [assumption|]).
  assert (Esel : Page.selectedTime (Page.handleTimeSelect (time (prompt d)) st1) =
                 Some (time (prompt d)))
    by (cbn [Page.selectedTime Page.handleTimeSelect]; now rewrite Htr).
  cbv zeta.
  rewrite (clickTable_correct g now iso (Page.handleTimeSelect (time (prompt d)) st1)
             d Ecur Esel Htr Hfind Hcap Hav).
  cbn. rewrite Eph. cbn. rewrite Estart. auto.
Qed.

Lemma trial1_can_be_completed_witness :
  valid (sampleRng 3) /\
  exists st1 d t,
    run (Page.startExperiment 1000 Page.initial) (sampleRng 3) = Some st1 /\
    Page.experimentPhase st1 = Page.Trial1 /\
    Page.currentData st1 = Some d /\
    t ∈ concat (gridRows (tables d)) /\
    let st2 := fst (Page.clickTable t 9000 "t"
                      (Page.handleTimeSelect (time (prompt d)) st1)) in
    Page.showNextButton st2 = true /\
    Page.errorMessage st2 = None /\
    Page.trial1Duration st2 = 9000 - 1000.
Proof.
  split; [apply sampleRng_valid|].
  apply (trial1_can_be_completed 1000 9000 "t" Page.initial (sampleRng 3)),
    sampleRng_valid.
Defined.





(** X19. A participant who books correctly in both trials posts one result:
    it names the display mode drawn first, gives the first trial that mode
    and the second trial the other one, the prompts of the two scenarios,
    and as durations the times from the start of each trial to its correct
    click; when the response is ok the page is complete. *)
Theorem session_posts_result (now0 now1 now2 now3 : Z) (iso : string) (s : Rng) :
  valid s ->
  exists st1 s1 d1 t1 st3 s3 d2 t2 st4,
    Page.startExperiment now0 Page.initial s = Some (st1, s1) /\
    Page.currentData st1 = Some d1 /\ t1 ∈ concat (gridRows (tables d1)) /\
    Page.startTrial2 now2
      (fst (Page.clickTable t1 now1 iso (Page.handleTimeSelect (time (prompt d1)) st1)))
      s1 = Some (st3, s3) /\
    Page.currentData st3 = Some d2 /\ t2 ∈ concat (gridRows (tables d2)) /\
    Page.clickTable t2 now3 iso (Page.handleTimeSelect (time (prompt d2)) st3) =
      (st4,
       Some {| Result.timestamp := iso;
               Result.firstSystem := systemType d1;
               Result.trial1 := {| Result.system := systemType d1;
                                   Result.prompt := Page.promptText d1;
                                   Result.duration := now1 - now0 |};
               Result.trial2 := {| Result.system := systemType d2;
                                   Result.prompt := Page.promptText d2;
                                   Result.duration := now3 - now2 |} |}) /\
    systemType d2 <> systemType d1 /\
    Page.submitting st4 = true /\
    Page.experimentPhase (fst (Page.saveResultsSettled Page.ResponseOk st4)) =
      Page.Complete /\
    Page.submitting (fst (Page.saveResultsSettled Page.ResponseOk st4)) = false.
Proof.
  intros Hs.
  destruct (returns_startExperiment now0 Page.initial s Hs)
    as (st1 & s1 & E1 & Hs1 & d1 & Hd1 & _ & Efs1 & Et1 & Ecur1 & _ & Eph1 & Est1 & _ & _).
  destruct (scenario_solvable d1 Hd1) as (t1 & Hgrid1 & Hfind1 & Hcap1 & Hav1 & Htr1).
  assert (Esel1 : Page.selectedTime (Page.handleTimeSelect (time (prompt d1)) st1) =
                  Some (time (prompt d1)))
    by (cbn [Page.selectedTime Page.handleTimeSelect]; now rewrite Htr1).
  pose proof (clickTable_correct t1 now1 iso (Page.handleTimeSelect (time (prompt d1)) st1)
                d1 Ecur1 Esel1 Htr1 Hfind1 Hcap1 Hav1) as Eclick1.
  cbn [Page.experimentPhase Page.handleTimeSelect] in Eclick1. rewrite Eph1 in Eclick1.
  set (st2 := fst (Page.clickTable t1 now1 iso
                     (Page.handleTimeSelect (time (prompt d1)) st1))).
  destruct (returns_startTrial2 now2 st2 s1 Hs1)
    as (st3 & s3 & E3 & _ & d2 & Hd2 & _ & Esys2 & Efs3 & Et13 & Edur3 & Et23 & Ecur3
        & Eph3 & Est3 & _ & _ & _).
  destruct (scenario_solvable d2 Hd2) as (t2 & Hgrid2 & Hfind2 & Hcap2 & Hav2 & Htr2).
  assert (Esel3 : Page.selectedTime (Page.handleTimeSelect (time (prompt d2)) st3) =
                  Some (time (prompt d2)))
    by (cbn [Page.selectedTime Page.handleTimeSelect]; now rewrite Htr2).
  pose proof (clickTable_correct t2 now3 iso (Page.handleTimeSelect (time (prompt d2)) st3)
                d2 Ecur3 Esel3 Htr2 Hfind2 Hcap2 Hav2) as Eclick2.
  cbn [Page.experimentPhase Page.handleTimeSelect] in Eclick2. rewrite Eph3 in Eclick2.
  assert (Efs2 : Page.firstSystem st2 = Some (systemType d1))
    by (subst st2; rewrite Eclick1; exact Efs1).
  assert (Et12 : Page.trial1Data st2 = Some d1)
    by (subst st2; rewrite Eclick1; exact Et1).
  assert (Edur2 : Page.trial1Duration st2 = now1 - now0)
    by (subst st2; rewrite Eclick1; cbn; now rewrite Est1).
  unfold Page.saveResults in Eclick2.
  cbn [Page.trial1Data Page.trial2Data Page.firstSystem Page.trial1Duration
       Page.trial2Duration Page.startTime Page.handleTimeSelect] in Eclick2.
  rewrite Et13, Et12, Et23, Efs3, Efs2, Edur3, Edur2, Est3 in Eclick2.
  eexists st1, s1, d1, t1, st3, s3, d2, t2, _.
  split; [exact E1|]. split; [exact Ecur1|]. split; [exact Hgrid1|].
  split; [exact E3|]. split; [exact Ecur3|]. split; [exact Hgrid2|].
  split; [exact Eclick2|]. split.
  - rewrite Esys2, Efs2. destruct (systemType d1); discriminate.
  - cbn. auto.
Qed.

Lemma session_posts_result_witness :
  valid (sampleRng 3) /\
  exists st1 s1 d1 t1,
    Page.startExperiment 1000 Page.initial (sampleRng 3) = Some (st1, s1) /\
    Page.currentData st1 = Some d1 /\ t1 ∈ concat (gridRows (tables d1)).
Proof.
  split; [apply sampleRng_valid|].
  destruct (session_posts_result 1000 5000 7000 9000 "t" (sampleRng 3)
              (sampleRng_valid 3))
    as (st1 & s1 & d1 & t1 & _ & _ & _ & _ & _ & E1 & Ecur & Hgrid & _).
  exists st1, s1, d1, t1. auto.
Defined.

(** X20. Nothing stops a second submission: in the second trial a correct
    click posts the result whether or not a submission is pending, and a
    second correct click posts again, with the duration up to that click. *)
Theorem trial2_click_posts_again
    (g : Table) (now now' : Z) (iso : string) (st : Page.State)
    (d d1 d2 : ExperimentData) (fs : SystemType) :
  Page.experimentPhase st = Page.Trial2 ->
  Page.currentData st = Some d ->
  Page.trial1Data st = Some d1 -> Page.trial2Data st = Some d2 ->
  Page.firstSystem st = Some fs ->
  Page.selectedTime st = Some (time (prompt d)) ->
  truthy (Some (time (prompt d))) = true ->
  findTable (tables d) (id g) = Some g ->
  capacity g = partySize (prompt d) ->
  isTableAvailable (id g) (time (prompt d)) (bookings d) = true ->
  exists st1 r st2 r',
    Page.clickTable g now iso st = (st1, Some r) /\
    Page.submitting st1 = true /\
    Page.clickTable g now' iso st1 = (st2, Some r') /\
    Result.duration (Result.trial2 r) = now - Page.startTime st /\
    Result.duration (Result.trial2 r') = now' - Page.startTime st.
Proof.
  intros Eph Ed E1 E2 Efs Et Htr Hfind Hcap Hav.
  pose proof (clickTable_correct g now iso st d Ed Et Htr Hfind Hcap Hav) as Ec.
  rewrite Eph in Ec. unfold Page.saveResults in Ec.
  cbn [Page.trial1Data Page.trial2Data Page.firstSystem] in Ec.
  rewrite E1, E2, Efs in Ec.
  match type of Ec with _ = (?x, _) =>
    pose proof (clickTable_correct g now' iso x d Ed Et Htr Hfind Hcap Hav) as Ec'
  end.
  cbn [Page.experimentPhase] in Ec'. unfold Page.saveResults in Ec'.
  cbn [Page.trial1Data Page.trial2Data Page.firstSystem] in Ec'.
  eexists _, _, _, _. split; [exact Ec|]. split; [reflexivity|].
  split; [exact Ec'|]. split; reflexivity.
Qed.

Lemma trial2_click_posts_again_witness :
  Page.submitting sampleState2 = true /\
  exists st1 r st2 r',
    Page.clickTable {| id := 1; shape := circle; capacity := 4 |} 21000 "t" sampleState2
      = (st1, Some r) /\
    Page.submitting st1 = true /\
    Page.clickTable {| id := 1; shape := circle; capacity := 4 |} 22000 "t" st1
      = (st2, Some r') /\
    Result.duration (Result.trial2 r) = 21000 - Page.startTime sampleState2 /\
    Result.duration (Result.trial2 r') = 22000 - Page.startTime sampleState2.
Proof.
  split; [reflexivity|].
  apply (trial2_click_posts_again {| id := 1; shape := circle; capacity := 4 |}
           21000 22000 "t" sampleState2 sampleData sampleData sampleData text);
    reflexivity.
Defined.

(** X21. In the first trial a correct click is accepted again after the
    first, and the duration kept is that of the last correct click. *)
Theorem trial1_duration_is_last_click
    (g : Table) (now now' : Z) (iso : string) (st : Page.State) (d : ExperimentData) :
  Page.experimentPhase st = Page.Trial1 ->
  Page.currentData st = Some d ->
  Page.selectedTime st = Some (time (prompt d)) ->
  truthy (Some (time (prompt d))) = true ->
  findTable (tables d) (id g) = Some g ->
  capacity g = partySize (prompt d) ->
  isTableAvailable (id g) (time (prompt d)) (bookings d) = true ->
  let st1 := fst (Page.clickTable g now iso st) in
  let st2 := fst (Page.clickTable g now' iso st1) in
  Page.showNextButton st1 = true /\
  Page.trial1Duration st1 = now - Page.startTime st /\
  Page.showNextButton st2 = true /\
  Page.trial1Duration st2 = now' - Page.startTime st.
Proof.
  intros Eph Ed Et Htr Hfind Hcap Hav.
  pose proof (clickTable_correct g now iso st d Ed Et Htr Hfind Hcap Hav) as Ec.
  rewrite Eph in Ec. cbv zeta. rewrite Ec. cbn [fst].
  match goal with |- _ /\ _ /\ Page.showNextButton (fst (Page.clickTable _ _ _ ?x)) = _ /\ _ =>
    pose proof (clickTable_correct g now' iso x d Ed Et Htr Hfind Hcap Hav) as Ec'
  end.
  cbn [Page.experimentPhase] in Ec'. rewrite Ec'. cbn. auto.
Qed.

Lemma trial1_duration_is_last_click_witness :
  let g := {| id := 1; shape := circle; capacity := 4 |} in
  let st1 := fst (Page.clickTable g 4500 "t" sampleState) in
  let st2 := fst (Page.clickTable g 60000 "t" st1) in
  Page.showNextButton st1 = true /\
  Page.trial1Duration st1 = 4500 - Page.startTime sampleState /\
  Page.showNextButton st2 = true /\
  Page.trial1Duration st2 = 60000 - Page.startTime sampleState.
Proof.
  apply (trial1_duration_is_last_click {| id := 1; shape := circle; capacity := 4 |}
           4500 60000 "t" sampleState sampleData); reflexivity.
Defined.

(** ** Properties of the analysis script *)

Lemma tally_fold (results : list Result.ExperimentResult) (t : Analysis.Tally) :
  let t' := fold_left Analysis.tallyResult results t in
  (Analysis.colouredFirst t' + Analysis.textFirst t' =
     Analysis.colouredFirst t + Analysis.textFirst t + length results)%nat /\
  Analysis.colouredDurations t' ++ Analysis.textDurations t' ≡ₚ
    Analysis.colouredDurations t ++ Analysis.textDurations t
    ++ concat (map (fun r => [Result.duration (Result.trial1 r);
                              Result.duration (Result.trial2 r)]) results) /\
  (Forall (fun r => Result.system (Result.trial1 r) <> Result.system (Result.trial2 r))
          results ->
   length (Analysis.colouredDurations t') =
     (length (Analysis.colouredDurations t) + length results)%nat /\
   length (Analysis.textDurations t') =
     (length (Analysis.textDurations t) + length results)%nat).
Proof.
  revert t. induction results as [|r results IH]; intros t; cbn [fold_left].
  - cbn. rewrite app_nil_r. repeat split; auto.
  - specialize (IH (Analysis.tallyResult t r)). cbv zeta in IH.
    destruct IH as (IH1 & IH2 & IH3). split; [|split].
    + rewrite IH1. unfold Analysis.tallyResult.
      destruct (Result.firstSystem r), (Result.system (Result.trial1 r)),
        (Result.system (Result.trial2 r)); cbn; lia.
    + rewrite IH2. unfold Analysis.tallyResult. cbn [map concat].
      destruct (Result.firstSystem r), (Result.system (Result.trial1 r)),
        (Result.system (Result.trial2 r)); cbn [Analysis.colouredDurations
          Analysis.textDurations]; solve_Permutation.
    + intros Hall. apply Forall_cons in Hall as [Hr Hall].
      destruct (IH3 Hall) as [-> ->]. unfold Analysis.tallyResult.
      destruct (Result.firstSystem r), (Result.system (Result.trial1 r)),
        (Result.system (Result.trial2 r)); try contradiction;
        cbn; rewrite ?length_app; cbn; lia.
Qed.

(** X22. The first loop of the analysis counts every participant once by
    the mode shown first, and files every duration under one of the two
    modes: the two duration lists together are the durations of all trials.
    When the two trials of every result have different modes, as the page
    records them, each list has one duration per participant. *)
Theorem tally_accounts_for_every_trial (results : list Result.ExperimentResult) :
  let t := Analysis.tally results in
  (Analysis.colouredFirst t + Analysis.textFirst t = length results)%nat /\
  Analysis.colouredDurations t ++ Analysis.textDurations t ≡ₚ
    concat (map (fun r => [Result.duration (Result.trial1 r);
                           Result.duration (Result.trial2 r)]) results) /\
  (Forall (fun r => Result.system (Result.trial1 r) <> Result.system (Result.trial2 r))
          results ->
   length (Analysis.colouredDurations t) = length results /\
   length (Analysis.textDurations t) = length results).
Proof.
  destruct (tally_fold results
              {| Analysis.colouredFirst := 0; Analysis.textFirst := 0;
                 Analysis.colouredDurations := []; Analysis.textDurations := [] |})
    as (H1 & H2 & H3).
  cbv zeta. unfold Analysis.tally. split; [exact H1|]. split; [exact H2|].
  intros Hall. exact (H3 Hall).
Qed.

Lemma tally_accounts_for_every_trial_witness :
  let r := {| Result.timestamp := "t"; Result.firstSystem := text;
              Result.trial1 := {| Result.system := text; Result.prompt := "p";
                                  Result.duration := 5000 |};
              Result.trial2 := {| Result.system := coloured; Result.prompt := "q";
                                  Result.duration := 3000 |} |} in
  length (Analysis.colouredDurations (Analysis.tally [r; r])) = 2%nat /\
  length (Analysis.textDurations (Analysis.tally [r; r])) = 2%nat.
Proof.
  intros r.
  destruct (tally_accounts_for_every_trial [r; r]) as (_ & _ & H).
  apply H. repeat constructor; discriminate.
Defined.






(** X24. The median does not depend on the order of the durations, and the
    median of no durations is [NaN]. *)
Theorem median_order_and_empty (values values' : list Z) :
  Analysis.median [] = None /\
  (values ≡ₚ values' -> Analysis.median values = Analysis.median values').
Proof.
  split; [reflexivity|]. intros Hp. unfold Analysis.median.
  assert (E : merge_sort Z.le values = merge_sort Z.le values').
  { apply (Sorted_unique Z.le); try apply Sorted_merge_sort; try apply _.
    now rewrite !merge_sort_Permutation. }
  now rewrite E.
Qed.

Lemma median_order_and_empty_witness :
  Analysis.median [5000; 1200; 3400] = Analysis.median [1200; 5000; 3400].
Proof.
  apply (median_order_and_empty [5000; 1200; 3400] [1200; 5000; 3400]).
  apply perm_swap.
Defined.

Example median_even : Analysis.median sampleDurations = Some (5500 # 2)%Q.
Proof. reflexivity. Qed.

(** ** What the grid shows for a generated scenario *)

Lemma slot_half_hours (t : string) :
  t ∈ AVAILABLE_TIMES ->
  exists k, 0 <= k <= 8 /\
    timeToMinutes t = Js.Num (1020 + 30 * k) /\
    timeToMinutes (addMinutes t 90) = Js.Num (1020 + 30 * k + 90).
Proof.
  intros Ht. unfold AVAILABLE_TIMES in Ht.
  apply elem_of_cons in Ht as [-> | Ht]; [exists 0; now vm_compute|].
  apply elem_of_cons in Ht as [-> | Ht]; [exists 1; now vm_compute|].
  apply elem_of_cons in Ht as [-> | Ht]; [exists 2; now vm_compute|].
  apply elem_of_cons in Ht as [-> | Ht]; [exists 3; now vm_compute|].
  apply elem_of_cons in Ht as [-> | Ht]; [exists 4; now vm_compute|].
  apply elem_of_cons in Ht as [-> | Ht]; [exists 5; now vm_compute|].
  apply elem_of_cons in Ht as [-> | Ht]; [exists 6; now vm_compute|].
  apply elem_of_cons in Ht as [-> | Ht]; [exists 7; now vm_compute|].
  apply elem_of_cons in Ht as [-> | Ht]; [exists 8; now vm_compute|].
  now apply elem_of_nil in Ht.
Qed.

Lemma isTableAvailable_false (z : Z) (t : string) (bks : list BookingSlot) :
  isTableAvailable z t bks = false <->
  exists b, b ∈ bks /\ tableId b = z /\
            timesOverlap t (addMinutes t 90) (startTime b) (endTime b) = true.
Proof.
  unfold isTableAvailable. rewrite negb_false_iff, existsb_exists. split.
  - intros (b & Hin & [Eb Hov]%andb_true_iff).
    exists b. rewrite list_elem_of_In, <- Z.eqb_eq. auto.
  - intros (b & Hin & Eb & Hov). exists b.
    rewrite <- list_elem_of_In, andb_true_iff, Z.eqb_eq. auto.
Qed.

(** X25. In a generated scenario a table is shown as booked at a slot
    exactly when one of its bookings starts at most 60 minutes before or
    after that slot. *)
Theorem booked_within_the_hour (systemType0 : SystemType) (s : Rng) :
  valid s ->
  exists d, run (generateExperimentData systemType0) s = Some d /\
    forall z t, t ∈ AVAILABLE_TIMES ->
      (isTableAvailable z t (bookings d) = false <->
       exists b S T,
         b ∈ bookings d /\ tableId b = z /\
         timeToMinutes (startTime b) = Js.Num S /\
         timeToMinutes t = Js.Num T /\
         - 60 <= T - S <= 60).
Proof.
  intros Hs.
  destruct (returns_run _ _ s (returns_generateExperimentData systemType0) Hs)
    as (d & Hrun & _ & _ & _ & g & _ & Hall & _).
  exists d. split; [assumption|]. intros z t Ht.
  destruct (slot_half_hours t Ht) as (kt & Hkt & Et & Et').
  rewrite Forall_forall in Hall.
  rewrite isTableAvailable_false. split.
  - intros (b & Hin & Eb & Hov).
    destruct (Hall b Hin) as (tb & _ & _ & Eend & Hstart & _).
    destruct (slot_half_hours _ Hstart) as (kb & Hkb & Es & Es').
    exists b, (1020 + 30 * kb), (1020 + 30 * kt).
    repeat (split; [assumption|]).
    unfold timesOverlap in Hov. rewrite Eend, Et, Et', Es, Es' in Hov.
    cbn [Js.lt Js.cmp] in Hov. apply andb_true_iff in Hov as [H1 H2].
    apply Z.ltb_lt in H1, H2. lia.
  - intros (b & S & T & Hin & Eb & ES & ET & Hd).
    destruct (Hall b Hin) as (tb & _ & _ & Eend & Hstart & _).
    destruct (slot_half_hours _ Hstart) as (kb & Hkb & Es & Es').
    exists b. repeat (split; [assumption|]).
    unfold timesOverlap. rewrite Eend, Et, Et', Es, Es'.
    rewrite Et in ET. rewrite Es in ES. injection ET as <-. injection ES as <-.
    cbn [Js.lt Js.cmp]. apply andb_true_iff. rewrite !Z.ltb_lt. lia.
Qed.

Lemma booked_within_the_hour_witness :
  valid (sampleRng 3) /\
  exists d, run (generateExperimentData text) (sampleRng 3) = Some d /\
    forall z t, t ∈ AVAILABLE_TIMES ->
      (isTableAvailable z t (bookings d) = false <->
       exists b S T,
         b ∈ bookings d /\ tableId b = z /\
         timeToMinutes (startTime b) = Js.Num S /\
         timeToMinutes t = Js.Num T /\
         - 60 <= T - S <= 60).
Proof.
  split; [apply sampleRng_valid|].
  apply (booked_within_the_hour text (sampleRng 3)), sampleRng_valid.
Defined.
